(** * pytorch-generative: the VAE and VQ-VAE-2 model files

    A shallow embedding of [pytorch_generative/models/vae.py] and
    [pytorch_generative/models/vq_vae_2.py].

    - Python control flow is embedded in an error monad ([Py.result]); code
      that also mutates [self] or draws random numbers runs in a state and
      error monad ([Py.M]).
    - Dense tensors are embedded over the real numbers: a rank-4 tensor is a
      shape [(N, C, H, W)] together with an indexing function.  Floating
      point rounding, NaN and infinities are outside the model.
    - The collaborators that the two files import but do not define
      ([pytorch_generative.models.vaes], [torch.nn], the random generator of
      [torch], the data sets and the [Trainer]) are first-class records of
      functions handed to the embedded code. *)

From Stdlib Require Import Reals Lra Lia List String Arith ZArith Bool.
Import ListNotations.

Set Implicit Arguments.

(* ================================================================== *)
(** ** The Python run-time: exceptions and the error monad            *)
(* ================================================================== *)

Module Py.

(** The exceptions the embedded code can raise. *)
Inductive exn : Type :=
| NameError (name : string)
| AttributeError (attr : string)
| ValueError (msg : string)
| TypeError (msg : string)
| RuntimeError (msg : string)
| StopIteration.

Inductive result (A : Type) : Type :=
| Ok (a : A)
| Raise (e : exn).

Arguments Ok {A} a.
Arguments Raise {A} e.

Definition bind {A B : Type} (m : result A) (k : A -> result B) : result B :=
  match m with
  | Ok a => k a
  | Raise e => Raise e
  end.

Definition is_ok {A : Type} (m : result A) : bool :=
  match m with
  | Ok _ => true
  | Raise _ => false
  end.

(** State and error: an exception keeps the state reached so far, as a
    Python exception keeps the mutations already made. *)
Definition M (S A : Type) : Type := S -> result A * S.

Definition ret {S A : Type} (a : A) : M S A := fun s => (Ok a, s).

Definition bindM {S A B : Type} (m : M S A) (k : A -> M S B) : M S B :=
  fun s =>
    match m s with
    | (Ok a, s') => k a s'
    | (Raise e, s') => (Raise e, s')
    end.

Definition lift {S A : Type} (r : result A) : M S A := fun s => (r, s).

Definition get {S : Type} : M S S := fun s => (Ok s, s).

Definition put {S : Type} (s : S) : M S unit := fun _ => (Ok tt, s).

(** [next(iter(l))]. *)
Definition next {A : Type} (l : list A) : result A :=
  match l with
  | a :: _ => Ok a
  | [] => Raise StopIteration
  end.

(** Sequence unpacking [a, b = xs]. *)
Definition unpack2 {A : Type} (xs : list A) : result (A * A) :=
  match xs with
  | [a; b] => Ok (a, b)
  | [] | [_] => Raise (ValueError "not enough values to unpack (expected 2)")
  | _ => Raise (ValueError "too many values to unpack (expected 2)")
  end.

(** The names of the [builtins] module (Python 3): the last scope searched
    when a global name is loaded. *)
Definition builtins : list string :=
  [ "abs"; "aiter"; "all"; "anext"; "any"; "ascii"; "bin"; "bool";
    "breakpoint"; "bytearray"; "bytes"; "callable"; "chr"; "classmethod";
    "compile"; "complex"; "copyright"; "credits"; "delattr"; "dict"; "dir";
    "divmod"; "enumerate"; "eval"; "exec"; "exit"; "filter"; "float";
    "format"; "frozenset"; "getattr"; "globals"; "hasattr"; "hash"; "help";
    "hex"; "id"; "input"; "int"; "isinstance"; "issubclass"; "iter"; "len";
    "license"; "list"; "locals"; "map"; "max"; "memoryview"; "min"; "next";
    "object"; "oct"; "open"; "ord"; "pow"; "print"; "property"; "quit";
    "range"; "repr"; "reversed"; "round"; "set"; "setattr"; "slice";
    "sorted"; "staticmethod"; "str"; "sum"; "super"; "tuple"; "type";
    "vars"; "zip"; "__import__"; "__build_class__"; "__debug__";
    "__doc__"; "__loader__"; "__name__"; "__package__"; "__spec__";
    "None"; "True"; "False"; "Ellipsis"; "NotImplemented";
    "ArithmeticError"; "AssertionError"; "AttributeError"; "BaseException";
    "BlockingIOError"; "BrokenPipeError"; "BufferError"; "BytesWarning";
    "ChildProcessError"; "ConnectionAbortedError"; "ConnectionError";
    "ConnectionRefusedError"; "ConnectionResetError"; "DeprecationWarning";
    "EOFError"; "EncodingWarning"; "EnvironmentError"; "Exception";
    "FileExistsError"; "FileNotFoundError"; "FloatingPointError";
    "FutureWarning"; "GeneratorExit"; "IOError"; "ImportError";
    "ImportWarning"; "IndentationError"; "IndexError"; "InterruptedError";
    "IsADirectoryError"; "KeyError"; "KeyboardInterrupt"; "LookupError";
    "MemoryError"; "ModuleNotFoundError"; "NameError";
    "NotADirectoryError"; "NotImplementedError"; "OSError";
    "OverflowError"; "PendingDeprecationWarning"; "PermissionError";
    "ProcessLookupError"; "RecursionError"; "ReferenceError";
    "ResourceWarning"; "RuntimeError"; "RuntimeWarning";
    "StopAsyncIteration"; "StopIteration"; "SyntaxError"; "SyntaxWarning";
    "SystemError"; "SystemExit"; "TabError"; "TimeoutError"; "TypeError";
    "UnboundLocalError"; "UnicodeDecodeError"; "UnicodeEncodeError";
    "UnicodeError"; "UnicodeTranslateError"; "UnicodeWarning";
    "UserWarning"; "ValueError"; "Warning"; "ZeroDivisionError" ]%string.

(** Whether [name] is bound in the [builtins] module. *)
Definition is_builtin (name : string) : bool :=
  existsb (String.eqb name) builtins.

(** [lookup name scope]: the first binding of [name] in an association
    list, as a dictionary lookup in a name space. *)
Fixpoint lookup {V : Type} (name : string) (scope : list (string * V))
  : option V :=
  match scope with
  | [] => None
  | (k, v) :: rest => if String.eqb name k then Some v else lookup name rest
  end.

End Py.

Declare Scope py_scope.
Delimit Scope py_scope with py.
Notation "x <- m ;; k" := (Py.bind m (fun x => k))
  (at level 61, m at next level, right associativity) : py_scope.
Notation "' p <- m ;; k" := (Py.bind m (fun p => k))
  (at level 61, p pattern, m at next level, right associativity) : py_scope.

Declare Scope pym_scope.
Delimit Scope pym_scope with pym.
Notation "x <- m ;; k" := (Py.bindM m (fun x => k))
  (at level 61, m at next level, right associativity) : pym_scope.
Notation "' p <- m ;; k" := (Py.bindM m (fun p => k))
  (at level 61, p pattern, m at next level, right associativity) : pym_scope.

(* ================================================================== *)
(** ** Dense tensors over the reals                                   *)
(* ================================================================== *)

Module Tensor.

Import Py.
Local Open Scope R_scope.

(** The shape [(N, C, H, W)] of an image batch. *)
Record shape : Type := Shape { dN : nat; dC : nat; dH : nat; dW : nat }.

(** A rank-4 tensor; [at_ n c h w] is read only inside the shape. *)
Record t : Type := Mk { shp : shape; at_ : nat -> nat -> nat -> nat -> R }.

(** A rank-1 tensor, as produced by a reduction over dims 1, 2 and 3. *)
Record t1 : Type := Mk1 { len : nat; at1 : nat -> R }.

Definition shape_eqb (a b : shape) : bool :=
  (dN a =? dN b)%nat && (dC a =? dC b)%nat &&
  (dH a =? dH b)%nat && (dW a =? dW b)%nat.

(** Pointwise application of a function: [torch.exp], [torch.sqrt],
    [x ** 2], and a Python number combined with a tensor. *)
Definition map (f : R -> R) (x : t) : t :=
  Mk (shp x) (fun n c h w => f (at_ x n c h w)).

Definition texp (x : t) : t := map exp x.
Definition tsqrt (x : t) : t := map sqrt x.
Definition pow2 (x : t) : t := map (fun v => v ^ 2) x.
Definition scalar_add (r : R) (x : t) : t := map (fun v => r + v) x.

(** Broadcasting of one dimension: equal sizes, or one of them is 1. *)
Definition bdim (a b : nat) : option nat :=
  if (a =? b)%nat then Some a
  else if (a =? 1)%nat then Some b
  else if (b =? 1)%nat then Some a
  else None.

Definition bshape (a b : shape) : option shape :=
  match bdim (dN a) (dN b), bdim (dC a) (dC b),
        bdim (dH a) (dH b), bdim (dW a) (dW b) with
  | Some n, Some c, Some h, Some w => Some (Shape n c h w)
  | _, _, _, _ => None
  end.

(** The index read in a dimension of size [d] of an operand. *)
Definition bidx (d i : nat) : nat := if (d =? 1)%nat then 0%nat else i.

Definition bat (x : t) (n c h w : nat) : R :=
  at_ x (bidx (dN (shp x)) n) (bidx (dC (shp x)) c)
        (bidx (dH (shp x)) h) (bidx (dW (shp x)) w).

(** A binary pointwise operator of two rank-4 tensors, with broadcasting;
    shapes that do not broadcast raise. *)
Definition binop (f : R -> R -> R) (a b : t) : result t :=
  match bshape (shp a) (shp b) with
  | Some s => Ok (Mk s (fun n c h w => f (bat a n c h w) (bat b n c h w)))
  | None => Raise (RuntimeError "The size of tensor a must match the size of tensor b")
  end.

Definition add : t -> t -> result t := binop Rplus.
Definition sub : t -> t -> result t := binop Rminus.
Definition mul : t -> t -> result t := binop Rmult.

(** [sum_upto n f] is [f 0 + ... + f (n-1)]. *)
Fixpoint sum_upto (n : nat) (f : nat -> R) : R :=
  match n with
  | O => 0
  | S k => sum_upto k f + f k
  end.

(** [x.mean(dim=(1, 2, 3))]: one average per batch element. *)
Definition mean123 (x : t) : t1 :=
  let s := shp x in
  Mk1 (dN s)
      (fun n =>
         sum_upto (dC s) (fun c =>
           sum_upto (dH s) (fun h =>
             sum_upto (dW s) (fun w => at_ x n c h w)))
         / INR (dC s * dH s * dW s)).

(** A Python number times a rank-1 tensor. *)
Definition scalar_mul1 (r : R) (x : t1) : t1 :=
  Mk1 (len x) (fun n => r * at1 x n).

(** [x.narrow(1, start, length)]. *)
Definition narrow1 (x : t) (start length : nat) : t :=
  let s := shp x in
  Mk (Shape (dN s) length (dH s) (dW s))
     (fun n c h w => at_ x n (start + c)%nat h w).

(** [torch.split(x, split_size, dim=1)] with an integer [split_size]:
    chunks of [split_size] channels, the last one holding what is left;
    at least one chunk is returned. *)
Definition split1 (x : t) (split_size : nat) : result (list t) :=
  let dim_size := dC (shp x) in
  if (split_size =? 0)%nat && negb (dim_size =? 0)%nat then
    Raise (RuntimeError "split_size can only be 0 if dimension size is 0")
  else
    let num_splits :=
      if (split_size =? 0)%nat then 1%nat
      else Nat.max ((dim_size + split_size - 1) / split_size) 1 in
    let last_split_size :=
      (split_size - (split_size * num_splits - dim_size))%nat in
    Ok (List.map
          (fun i =>
             narrow1 x (i * split_size)
               (if (i <? num_splits - 1)%nat then split_size
                else last_split_size))
          (seq 0 num_splits)).

(** [torch.cat((a, b), dim=1)]: the other dimensions must agree. *)
Definition cat1 (a b : t) : result t :=
  let sa := shp a in
  let sb := shp b in
  if (dN sa =? dN sb)%nat && (dH sa =? dH sb)%nat && (dW sa =? dW sb)%nat
  then
    Ok (Mk (Shape (dN sa) (dC sa + dC sb) (dH sa) (dW sa))
           (fun n c h w =>
              if (c <? dC sa)%nat then at_ a n c h w
              else at_ b n (c - dC sa)%nat h w))
  else Raise (RuntimeError "Sizes of tensors must match except in dimension 1").

(** Two tensors agree when they have one shape and the same entries in it. *)
Definition agree (a b : t) : Prop :=
  shp a = shp b /\
  forall n c h w,
    (n < dN (shp a))%nat -> (c < dC (shp a))%nat ->
    (h < dH (shp a))%nat -> (w < dW (shp a))%nat ->
    at_ a n c h w = at_ b n c h w.

End Tensor.

(* ================================================================== *)
(** ** The imported collaborators                                     *)
(* ================================================================== *)

(** What the two files use of the modules they import.  None of these is
    defined in the files themselves; the embedded code receives them as
    values, the way the Python code receives them through [import]. *)
Module Ext.

Import Py.

Inductive Device : Type := Cpu | Cuda.

(** A [torch.nn.Parameter], as far as the code reads it. *)
Record Param : Type := { p_device : Device }.

(** An [nn.Module] with one tensor input and one tensor output: its
    registered parameters and its [forward]. *)
Record Layer : Type :=
  { parameters : list Param;
    forward : Tensor.t -> result Tensor.t }.

(** A [vaes.Quantizer]: [forward] returns the quantized tensor and the
    (scalar) quantization loss. *)
Record QuantizerLayer : Type :=
  { q_parameters : list Param;
    q_forward : Tensor.t -> result (Tensor.t * R) }.

(** The keyword arguments of [vaes.Encoder] and [vaes.Decoder]. *)
Record CodecArgs : Type :=
  { in_channels : nat;
    out_channels : nat;
    hidden_channels : nat;
    residual_channels : nat;
    n_residual_blocks : nat;
    stride : nat }.

(** The keyword arguments of [vaes.Quantizer]. *)
Record QuantizerArgs : Type :=
  { q_in_channels : nat;
    n_embeddings : nat;
    embedding_dim : nat }.

(** The module [pytorch_generative.models.vaes]. *)
Record Vaes : Type :=
  { Encoder : CodecArgs -> result Layer;
    Decoder : CodecArgs -> result Layer;
    Quantizer : QuantizerArgs -> result QuantizerLayer }.

(** The module [torch.nn]: [Conv2d(in_channels, out_channels, kernel_size)]. *)
Record Nn : Type :=
  { Conv2d : nat -> nat -> nat -> result Layer }.

(** The module [torch.nn.functional]: [mse_loss] returns a scalar. *)
Record Functional : Type :=
  { mse_loss : Tensor.t -> Tensor.t -> result R }.

(** The random number generator of [torch]: [randn shape] draws a tensor
    of standard-normal samples of that shape and advances the generator.
    The device argument of [torch.randn] chooses where the tensor is
    stored, which the model of tensors does not record. *)
Record Torch : Type :=
  { Gen : Type;
    randn : Tensor.shape -> Gen -> Tensor.t * Gen;
    randn_shape : forall s g, Tensor.shp (fst (randn s g)) = s }.

End Ext.

(* ================================================================== *)
(** ** models/vae.py: class VAE                                        *)
(* ================================================================== *)

Module Vae.

Import Py Ext.
Local Open Scope R_scope.

(** An instance of [VAE].  [_in_size] is not assigned by [__init__]: the
    attribute exists only once [forward] has run. *)
Record VAE : Type :=
  { _latent_channels : nat;
    _stride : nat;
    _encoder : Layer;
    _decoder : Layer;
    _in_size : option nat }.

(** Attribute assignment [self._in_size = v]. *)
Definition set_in_size (self : VAE) (v : nat) : VAE :=
  {| _latent_channels := _latent_channels self;
     _stride := _stride self;
     _encoder := _encoder self;
     _decoder := _decoder self;
     _in_size := Some v |}.

(** Attribute read [self._in_size]. *)
Definition get_in_size (self : VAE) : result nat :=
  match _in_size self with
  | Some v => Ok v
  | None => Raise (AttributeError "_in_size")
  end.

(** [self.parameters()]: the parameters of the registered sub-modules, in
    the order of registration. *)
Definition VAE_parameters (self : VAE) : list Param :=
  parameters (_encoder self) ++ parameters (_decoder self).

Section WithModules.

Variable torch : Torch.
Variable vaes : Vaes.

(** The state a method call runs in: the instance and the generator. *)
Record Heap : Type := { self_ : VAE; gen : Gen torch }.

Definition read_self : M Heap VAE := fun s => (Ok (self_ s), s).

Definition write_self (v : VAE) : M Heap unit :=
  fun s => (Ok tt, {| self_ := v; gen := gen s |}).

(** [torch.randn(shape, device=device)] and [torch.randn_like(x)]. *)
Definition torch_randn (shape : Tensor.shape) (device : Device)
  : M Heap Tensor.t :=
  fun s =>
    let (x, g) := randn torch shape (gen s) in
    (Ok x, {| self_ := self_ s; gen := g |}).

Definition torch_randn_like (x : Tensor.t) : M Heap Tensor.t :=
  fun s =>
    let (e, g) := randn torch (Tensor.shp x) (gen s) in
    (Ok e, {| self_ := self_ s; gen := g |}).

(** [VAE.__init__] (lines 12-49). *)
Definition __init__
  (in_channels out_channels latent_channels
   hidden_channels residual_channels : nat) : result VAE :=
  (let _latent_channels := latent_channels in
   let _stride := 4%nat in
   encoder <- Encoder vaes
     {| Ext.in_channels := in_channels;
        Ext.out_channels := 2 * _latent_channels;
        Ext.hidden_channels := hidden_channels;
        Ext.residual_channels := residual_channels;
        Ext.n_residual_blocks := 2;
        Ext.stride := _stride |} ;;
   decoder <- Decoder vaes
     {| Ext.in_channels := _latent_channels;
        Ext.out_channels := out_channels;
        Ext.hidden_channels := hidden_channels;
        Ext.residual_channels := residual_channels;
        Ext.n_residual_blocks := 2;
        Ext.stride := _stride |} ;;
   Ok {| Vae._latent_channels := _latent_channels;
         Vae._stride := _stride;
         _encoder := encoder;
         _decoder := decoder;
         _in_size := None |})%py.

(** [VAE.forward] (lines 51-62). *)
Definition VAE_forward (x : Tensor.t) : M Heap (Tensor.t * Tensor.t1) :=
  (self <- read_self ;;
   _ <- write_self (set_in_size self (Tensor.dH (Tensor.shp x))) ;;
   self <- read_self ;;
   encoded <- lift (forward (_encoder self) x) ;;
   chunks <- lift (Tensor.split1 encoded (_latent_channels self)) ;;
   '(mean, log_var) <- lift (unpack2 chunks) ;;
   let var := Tensor.texp log_var in
   eps <- torch_randn_like var ;;
   scaled <- lift (Tensor.mul (Tensor.tsqrt var) eps) ;;
   latents <- lift (Tensor.add mean scaled) ;;
   d1 <- lift (Tensor.sub (Tensor.scalar_add 1 log_var) (Tensor.pow2 mean)) ;;
   d2 <- lift (Tensor.sub d1 var) ;;
   let kl_div := Tensor.scalar_mul1 (- 0.5) (Tensor.mean123 d2) in
   decoded <- lift (forward (_decoder self) latents) ;;
   ret (decoded, kl_div))%pym.

(** [VAE.sample] (lines 64-70). *)
Definition VAE_sample (n_samples : nat) : M Heap Tensor.t :=
  (self <- read_self ;;
   p <- lift (next (VAE_parameters self)) ;;
   let device := p_device p in
   in_size <- lift (get_in_size self) ;;
   let latent_size := (in_size / 2 ^ (_stride self / 2))%nat in
   let shape :=
     Tensor.Shape n_samples (_latent_channels self) latent_size latent_size in
   latents <- torch_randn shape device ;;
   lift (forward (_decoder self) latents))%pym.

End WithModules.

End Vae.

(* ================================================================== *)
(** ** models/vq_vae_2.py: class VQVAE2                               *)
(* ================================================================== *)

Module VqVae2.

Import Py Ext.
Local Open Scope R_scope.

(** The values a global name of this module can be bound to, as far as
    the code of the module uses global names: the imported modules, the
    class and the function the module defines, and the three kinds of
    value the code expects behind [Quantizer], [F] and [N_EPOCHS]. *)
Inductive Binding : Type :=
| BModuleTorch
| BModuleNn (nn : Nn)
| BModuleVaes (vaes : Vaes)
| BModuleFunctional (F : Functional)
| BClassQuantizer (cls : QuantizerArgs -> result QuantizerLayer)
| BClassVQVAE2
| BFunctionReproduce
| BInt (z : Z)
| BStr
| BBuiltin (name : string).

(** The global name space of the module once it is imported: one entry
    per top-level statement that binds a name ([import torch],
    [from torch import nn], [from pytorch_generative.models import vaes],
    [class VQVAE2], [def reproduce]), after the names every module has. *)
Definition module_globals (nn : Nn) (vaes : Vaes) : list (string * Binding) :=
  [ ("__name__", BStr); ("__doc__", BStr); ("__package__", BStr);
    ("__file__", BStr);
    ("torch", BModuleTorch);
    ("nn", BModuleNn nn);
    ("vaes", BModuleVaes vaes);
    ("VQVAE2", BClassVQVAE2);
    ("reproduce", BFunctionReproduce) ]%string.

(** Loading a name that is not local to the running function: the module
    globals first, the builtins next, [NameError] otherwise. *)
Definition load_global (globals : list (string * Binding)) (name : string)
  : result Binding :=
  match lookup name globals with
  | Some b => Ok b
  | None =>
      if is_builtin name then Ok (BBuiltin name) else Raise (NameError name)
  end.

(** Uses of a loaded value. *)
Definition as_vaes (b : Binding) : result Vaes :=
  match b with
  | BModuleVaes v => Ok v
  | _ => Raise (AttributeError "Encoder")
  end.

Definition as_nn (b : Binding) : result Nn :=
  match b with
  | BModuleNn n => Ok n
  | _ => Raise (AttributeError "Conv2d")
  end.

Definition as_torch (b : Binding) : result unit :=
  match b with
  | BModuleTorch => Ok tt
  | _ => Raise (AttributeError "cat")
  end.

Definition as_functional (b : Binding) : result Functional :=
  match b with
  | BModuleFunctional f => Ok f
  | _ => Raise (AttributeError "mse_loss")
  end.

Definition as_quantizer_class (b : Binding)
  : result (QuantizerArgs -> result QuantizerLayer) :=
  match b with
  | BClassQuantizer cls => Ok cls
  | _ => Raise (TypeError "object is not callable with these arguments")
  end.

Definition as_int (b : Binding) : result Z :=
  match b with
  | BInt z => Ok z
  | _ => Raise (TypeError "an integer is required")
  end.

(** An instance of [VQVAE2]. *)
Record VQVAE2 : Type :=
  { _encoder_b : Layer;
    _encoder_t : Layer;
    _quantizer_t : QuantizerLayer;
    _quantizer_b : QuantizerLayer;
    _decoder_t : Layer;
    _conv : Layer;
    _decoder_b : Layer }.

(** The keyword arguments of [VQVAE2.__init__], with their defaults. *)
Record InitArgs : Type :=
  { in_channels : nat;
    out_channels : nat;
    hidden_channels : nat;
    n_residual_blocks : nat;
    residual_channels : nat;
    n_embeddings : nat;
    embedding_dim : nat }.

Definition default_args : InitArgs :=
  {| in_channels := 1;
     out_channels := 1;
     hidden_channels := 128;
     n_residual_blocks := 2;
     residual_channels := 32;
     n_embeddings := 128;
     embedding_dim := 16 |}.

Section WithGlobals.

Variable globals : list (string * Binding).

(** [VQVAE2.__init__] (lines 22-74). *)
Definition __init__ (a : InitArgs) : result VQVAE2 :=
  (vaes <- (b <- load_global globals "vaes" ;; as_vaes b) ;;
   encoder_b <- Encoder vaes
     {| Ext.in_channels := in_channels a;
        Ext.out_channels := hidden_channels a;
        Ext.hidden_channels := hidden_channels a;
        Ext.residual_channels := residual_channels a;
        Ext.n_residual_blocks := n_residual_blocks a;
        Ext.stride := 2 |} ;;
   vaes <- (b <- load_global globals "vaes" ;; as_vaes b) ;;
   encoder_t <- Encoder vaes
     {| Ext.in_channels := hidden_channels a;
        Ext.out_channels := hidden_channels a;
        Ext.hidden_channels := hidden_channels a;
        Ext.residual_channels := residual_channels a;
        Ext.n_residual_blocks := n_residual_blocks a;
        Ext.stride := 2 |} ;;
   vaes <- (b <- load_global globals "vaes" ;; as_vaes b) ;;
   quantizer_t <- Quantizer vaes
     {| Ext.q_in_channels := hidden_channels a;
        Ext.n_embeddings := n_embeddings a;
        Ext.embedding_dim := embedding_dim a |} ;;
   Quantizer_ <- (b <- load_global globals "Quantizer" ;;
                  as_quantizer_class b) ;;
   quantizer_b <- Quantizer_
     {| Ext.q_in_channels := hidden_channels a;
        Ext.n_embeddings := n_embeddings a;
        Ext.embedding_dim := embedding_dim a |} ;;
   vaes <- (b <- load_global globals "vaes" ;; as_vaes b) ;;
   decoder_t <- Decoder vaes
     {| Ext.in_channels := embedding_dim a;
        Ext.out_channels := hidden_channels a;
        Ext.hidden_channels := hidden_channels a;
        Ext.residual_channels := residual_channels a;
        Ext.n_residual_blocks := n_residual_blocks a;
        Ext.stride := 2 |} ;;
   nn <- (b <- load_global globals "nn" ;; as_nn b) ;;
   conv <- Conv2d nn (in_channels a) (embedding_dim a) 1 ;;
   vaes <- (b <- load_global globals "vaes" ;; as_vaes b) ;;
   decoder_b <- Decoder vaes
     {| Ext.in_channels := 2 * embedding_dim a;
        Ext.out_channels := out_channels a;
        Ext.hidden_channels := hidden_channels a;
        Ext.residual_channels := residual_channels a;
        Ext.n_residual_blocks := n_residual_blocks a;
        Ext.stride := 2 |} ;;
   Ok {| _encoder_b := encoder_b;
         _encoder_t := encoder_t;
         _quantizer_t := quantizer_t;
         _quantizer_b := quantizer_b;
         _decoder_t := decoder_t;
         _conv := conv;
         _decoder_b := decoder_b |})%py.

(** [VQVAE2.forward] (lines 76-86). *)
Definition VQVAE2_forward (self : VQVAE2) (x : Tensor.t)
  : result (Tensor.t * R) :=
  (encoded_b <- forward (_encoder_b self) x ;;
   encoded_t <- forward (_encoder_t self) encoded_b ;;
   '(quantized_t, vq_loss_t) <- q_forward (_quantizer_t self) encoded_t ;;
   '(quantized_b, vq_loss_b) <- q_forward (_quantizer_b self) encoded_b ;;
   decoded_t <- forward (_decoder_t self) quantized_t ;;
   _ <- (b <- load_global globals "torch" ;; as_torch b) ;;
   convolved <- forward (_conv self) decoded_t ;;
   joined <- Tensor.cat1 convolved quantized_b ;;
   xhat <- forward (_decoder_b self) joined ;;
   let vq_loss := 0.5 * (vq_loss_b + vq_loss_t) in
   F <- (b <- load_global globals "F" ;; as_functional b) ;;
   mse <- mse_loss F decoded_t encoded_b ;;
   Ok (xhat, vq_loss + mse))%py.

(** [VQVAE2(...)(x)]: construct the model, then call it. *)
Definition construct_and_call (a : InitArgs) (x : Tensor.t)
  : result (Tensor.t * R) :=
  (model <- __init__ a ;; VQVAE2_forward model x)%py.

End WithGlobals.

End VqVae2.

(* ================================================================== *)
(** ** The [reproduce] scripts                                        *)
(* ================================================================== *)

(** The objects the two [reproduce] functions build from [torchvision],
    [torch.utils.data], [torch.optim] and [pytorch_generative.trainer].
    Each constructor only records its arguments; the one call with an
    effect, [Trainer.interleaved_train_and_eval], is logged as an event. *)
Module Train.

Import Py Ext.
Local Open Scope R_scope.

(** [transforms.ToTensor()] and [transforms.Normalize(mean, std)]. *)
Inductive Step : Type :=
| ToTensor
| Normalize (mean std : list R).

(** A transform: one step, or [transforms.Compose([...])]. *)
Inductive Transform : Type :=
| Single (s : Step)
| Compose (steps : list Step).

(** [datasets.MNIST(root, train, download, transform)] and
    [datasets.CIFAR10(...)]. *)
Record Dataset : Type :=
  { ds_class : string;
    ds_root : string;
    ds_train : bool;
    ds_download : bool;
    ds_transform : Transform }.

(** [data.DataLoader(dataset, batch_size, shuffle, num_workers)];
    [shuffle] defaults to [False]. *)
Record Loader : Type :=
  { ld_dataset : Dataset;
    ld_batch_size : nat;
    ld_shuffle : bool;
    ld_num_workers : nat }.

(** [optim.Adam(params, lr)]. *)
Record Optimizer : Type :=
  { opt_params : list Param;
    opt_lr : R }.

(** [lr_scheduler.MultiplicativeLR(optimizer, lr_lambda)] with a constant
    [lr_lambda]. *)
Record Scheduler : Type :=
  { sch_optimizer : Optimizer;
    sch_factor : R }.

(** [trainer.Trainer(...)], for a model of type [Model].  The two closures
    [loss_fn] and [sample_fn] are not run by [reproduce] itself and are
    left out of the record. *)
Record Trainer (Model : Type) : Type :=
  { tr_model : Model;
    tr_optimizer : Optimizer;
    tr_train_loader : Loader;
    tr_eval_loader : Loader;
    tr_lr_scheduler : Scheduler;
    tr_sample_epochs : option nat;
    tr_log_dir : string;
    tr_device : string }.

(** The call [model_trainer.interleaved_train_and_eval(n_epochs)]. *)
Inductive Event (Model : Type) : Type :=
| InterleavedTrainAndEval (t : Trainer Model) (n_epochs : Z).

(** [debug_loader or default]: the left operand when it is there and
    true, the right one otherwise.  [truthy] is the truth value of a
    loader (its [__len__] is not zero). *)
Definition py_or (truthy : Loader -> bool) (debug_loader : option Loader)
  (default : Loader) : Loader :=
  match debug_loader with
  | Some l => if truthy l then l else default
  | None => default
  end.

(** The arguments of [reproduce], with their defaults. *)
Record ReproduceArgs : Type :=
  { n_epochs : Z;
    batch_size : nat;
    log_dir : string;
    device : string;
    debug_loader : option Loader }.

Definition default_reproduce_args : ReproduceArgs :=
  {| n_epochs := 457;
     batch_size := 128;
     log_dir := "/tmp/run";
     device := "cuda";
     debug_loader := None |}.

Definition interleaved_train_and_eval {Model : Type}
  (t : Trainer Model) (n : Z) : M (list (Event Model)) unit :=
  fun log => (Ok tt, log ++ [InterleavedTrainAndEval t n]).

Section Scripts.

Variable truthy : Loader -> bool.

(** [reproduce] of models/vae.py (lines 73-149).  [models_VAE] is
    [models.VAE], the class of that file re-exported by the package. *)
Definition vae_reproduce
  (models_VAE : nat -> nat -> nat -> nat -> nat -> result Vae.VAE)
  (a : ReproduceArgs) : M (list (Event Vae.VAE)) unit :=
  (let transform := Single ToTensor in
   let train_loader :=
     py_or truthy (debug_loader a)
       {| ld_dataset :=
            {| ds_class := "MNIST"; ds_root := "/tmp/data";
               ds_train := true; ds_download := true;
               ds_transform := transform |};
          ld_batch_size := batch_size a;
          ld_shuffle := true;
          ld_num_workers := 8 |} in
   let test_loader :=
     py_or truthy (debug_loader a)
       {| ld_dataset :=
            {| ds_class := "MNIST"; ds_root := "/tmp/data";
               ds_train := false; ds_download := true;
               ds_transform := transform |};
          ld_batch_size := batch_size a;
          ld_shuffle := false;
          ld_num_workers := 8 |} in
   model <- lift (models_VAE 1 1 2 128 32)%nat ;;
   let optimizer :=
     {| opt_params := Vae.VAE_parameters model; opt_lr := 1e-3 |} in
   let scheduler :=
     {| sch_optimizer := optimizer; sch_factor := 0.999977 |} in
   let model_trainer :=
     {| tr_model := model;
        tr_optimizer := optimizer;
        tr_train_loader := train_loader;
        tr_eval_loader := test_loader;
        tr_lr_scheduler := scheduler;
        tr_sample_epochs := Some 5%nat;
        tr_log_dir := log_dir a;
        tr_device := device a |} in
   interleaved_train_and_eval model_trainer (n_epochs a))%pym.

(** [self.parameters()] of a [VQVAE2], in the order of registration. *)
Definition VQVAE2_parameters (m : VqVae2.VQVAE2) : list Param :=
  parameters (VqVae2._encoder_b m) ++ parameters (VqVae2._encoder_t m) ++
  q_parameters (VqVae2._quantizer_t m) ++
  q_parameters (VqVae2._quantizer_b m) ++
  parameters (VqVae2._decoder_t m) ++ parameters (VqVae2._conv m) ++
  parameters (VqVae2._decoder_b m).

(** [reproduce] of models/vq_vae_2.py (lines 89-159).  [globals] is the
    global name space of that module and [models_VQVAE2] is
    [models.VQVAE2]. *)
Definition vq_vae_2_reproduce
  (globals : list (string * VqVae2.Binding))
  (models_VQVAE2 : VqVae2.InitArgs -> result VqVae2.VQVAE2)
  (a : ReproduceArgs) : M (list (Event VqVae2.VQVAE2)) unit :=
  (let transform :=
     Compose [ ToTensor;
               Normalize [0.4914; 0.4822; 0.4465]
                         [0.2023; 0.1994; 0.2010] ] in
   let train_loader :=
     py_or truthy (debug_loader a)
       {| ld_dataset :=
            {| ds_class := "CIFAR10"; ds_root := "/tmp/data";
               ds_train := true; ds_download := true;
               ds_transform := transform |};
          ld_batch_size := batch_size a;
          ld_shuffle := true;
          ld_num_workers := 8 |} in
   let test_loader :=
     py_or truthy (debug_loader a)
       {| ld_dataset :=
            {| ds_class := "CIFAR10"; ds_root := "/tmp/data";
               ds_train := false; ds_download := true;
               ds_transform := transform |};
          ld_batch_size := batch_size a;
          ld_shuffle := false;
          ld_num_workers := 8 |} in
   model <- lift (models_VQVAE2
                    {| VqVae2.in_channels := 3;
                       VqVae2.out_channels := 3;
                       VqVae2.hidden_channels := 128;
                       VqVae2.residual_channels := 64;
                       VqVae2.n_residual_blocks := 2;
                       VqVae2.n_embeddings := 512;
                       VqVae2.embedding_dim := 64 |}) ;;
   let optimizer :=
     {| opt_params := VQVAE2_parameters model; opt_lr := 2e-4 |} in
   let scheduler :=
     {| sch_optimizer := optimizer; sch_factor := 0.999977 |} in
   let model_trainer :=
     {| tr_model := model;
        tr_optimizer := optimizer;
        tr_train_loader := train_loader;
        tr_eval_loader := test_loader;
        tr_lr_scheduler := scheduler;
        tr_sample_epochs := None;
        tr_log_dir := log_dir a;
        tr_device := device a |} in
   N_EPOCHS <- lift (b <- VqVae2.load_global globals "N_EPOCHS" ;;
                     VqVae2.as_int b)%py ;;
   interleaved_train_and_eval model_trainer N_EPOCHS)%pym.

End Scripts.

End Train.

(* ================================================================== *)
(** ** Vector quantization with a straight-through estimator          *)
(* ================================================================== *)

(** The quantizer lives in [pytorch_generative.models.vaes], which the two
    model files import.  Gradients are embedded by forward-mode
    differentiation: a number carries its value and its derivative along
    a direction of the quantizer input. *)
Module StraightThrough.

Local Open Scope R_scope.

(** A value together with its derivative. *)
Record Dual : Type := { val : R; tan : R }.

Definition dadd (a b : Dual) : Dual :=
  {| val := val a + val b; tan := tan a + tan b |}.

Definition dsub (a b : Dual) : Dual :=
  {| val := val a - val b; tan := tan a - tan b |}.

(** [x.detach()]: the same value, cut off from differentiation. *)
Definition detach (a : Dual) : Dual := {| val := val a; tan := 0 |}.

(** An entry of the codebook, read as a constant of the input. *)
Definition const (r : R) : Dual := {| val := r; tan := 0 |}.

(** Squared Euclidean distance of a vector to a codebook entry. *)
Fixpoint dist2 (v e : list R) : R :=
  match v, e with
  | a :: v', b :: e' => (a - b) ^ 2 + dist2 v' e'
  | _, _ => 0
  end.

(** The codebook entry nearest to [v]; the first one among equals. *)
Fixpoint nearest (best : list R) (codebook : list (list R)) (v : list R)
  : list R :=
  match codebook with
  | [] => best
  | e :: rest =>
      if Rlt_dec (dist2 v e) (dist2 v best)
      then nearest e rest v
      else nearest best rest v
  end.

Fixpoint zip_with {A B C : Type} (f : A -> B -> C) (xs : list A)
  (ys : list B) : list C :=
  match xs, ys with
  | x :: xs', y :: ys' => f x y :: zip_with f xs' ys'
  | _, _ => []
  end.

(** Modelled from the spec: the forward pass of the vector quantizer of
    [pytorch_generative.models.vaes] (absent from the sources at hand),
    following "vector quantization with a straight-through gradient
    estimator": the input vector [x] is replaced by the nearest entry [q]
    of the codebook, written as [x + (q - x).detach()] so that the value
    is [q] while differentiation sees [x].  The codebook holds [first]
    and the entries of [others]. *)
Definition quantize (first : list R) (others : list (list R))
  (x : list Dual) : list Dual :=
  let q := nearest first others (List.map val x) in
  zip_with (fun xi qi => dadd xi (detach (dsub (const qi) xi))) x q.

End StraightThrough.

(* ================================================================== *)
(** ** The specification's own words, and sample collaborators        *)
(* ================================================================== *)

Module Spec.

Local Open Scope R_scope.

(** The closed form of the Kullback-Leibler divergence from the
    Gaussian [N(mu, var)] to the standard normal [N(0, 1)]. *)
Definition kl_gauss (mu var : R) : R :=
  0.5 * (var + mu ^ 2 - 1 - ln var).

(** The average of [f c h w] over [c < C], [h < H] and [w < W]. *)
Definition average_chw (C H W : nat) (f : nat -> nat -> nat -> R) : R :=
  Tensor.sum_upto C (fun c =>
    Tensor.sum_upto H (fun h =>
      Tensor.sum_upto W (fun w => f c h w)))
  / INR (C * H * W).

End Spec.

(** Small collaborators on which the embedded code can be run. *)
Module Sample.

Import Py Ext.
Local Open Scope R_scope.

Definition one_param : list Param := [ {| p_device := Cpu |} ].

(** A layer that returns its input. *)
Definition identity_layer : Layer :=
  {| parameters := one_param; forward := fun x => Ok x |}.

(** A layer whose output has [c] channels, all zero. *)
Definition zero_layer (c : nat) : Layer :=
  {| parameters := one_param;
     forward := fun x =>
       Ok (Tensor.Mk
             (Tensor.Shape (Tensor.dN (Tensor.shp x)) c
                           (Tensor.dH (Tensor.shp x))
                           (Tensor.dW (Tensor.shp x)))
             (fun _ _ _ _ => 0)) |}.

(** A quantizer that returns its input and a zero loss. *)
Definition identity_quantizer : QuantizerLayer :=
  {| q_parameters := one_param; q_forward := fun x => Ok (x, 0) |}.

Definition vaes : Vaes :=
  {| Encoder := fun a => Ok (zero_layer (Ext.out_channels a));
     Decoder := fun a => Ok (zero_layer (Ext.out_channels a));
     Quantizer := fun _ => Ok identity_quantizer |}.

Definition nn : Nn :=
  {| Conv2d := fun _ out _ => Ok (zero_layer out) |}.

(** A generator that counts its draws and returns constant tensors. *)
Definition torch : Torch :=
  {| Gen := nat;
     randn := fun s g => (Tensor.Mk s (fun _ _ _ _ => INR g), S g);
     randn_shape := fun _ _ => eq_refl |}.

(** A batch of one image with one channel and 4 x 4 pixels, all zero. *)
Definition image : Tensor.t :=
  Tensor.Mk (Tensor.Shape 1 1 4 4) (fun _ _ _ _ => 0).

Definition vq_model : VqVae2.VQVAE2 :=
  {| VqVae2._encoder_b := identity_layer;
     VqVae2._encoder_t := identity_layer;
     VqVae2._quantizer_t := identity_quantizer;
     VqVae2._quantizer_b := identity_quantizer;
     VqVae2._decoder_t := identity_layer;
     VqVae2._conv := identity_layer;
     VqVae2._decoder_b := identity_layer |}.

(** The [VAE] that [__init__] builds from [vaes] with the arguments used
    by [reproduce]. *)
Definition vae_model : Vae.VAE :=
  {| Vae._latent_channels := 2;
     Vae._stride := 4;
     Vae._encoder := zero_layer 4;
     Vae._decoder := zero_layer 1;
     Vae._in_size := None |}.

(** What the encoder of [vae_model] returns on [image]. *)
Definition encoded_image : Tensor.t :=
  Tensor.Mk (Tensor.Shape 1 4 4 4) (fun _ _ _ _ => 0).

(** The state in which the first method call on [vae_model] runs. *)
Definition fresh_heap : Vae.Heap torch :=
  @Vae.Build_Heap torch vae_model 0%nat.

End Sample.

(* ================================================================== *)
(** ** The closures of [reproduce] in models/vae.py                   *)
(* ================================================================== *)

Module VaeScript.

Import Py Ext.
Local Open Scope R_scope.

(** [torch.sigmoid]. *)
Definition tsigmoid (x : Tensor.t) : Tensor.t :=
  Tensor.map (fun v => 1 / (1 + exp (- v))) x.





(** [sample_fn] (lines 134-135), run on the model held in the state. *)
Definition sample_fn (torch : Torch) : M (Vae.Heap torch) Tensor.t :=
  (s <- Vae.VAE_sample 16 ;; ret (tsigmoid s))%pym.

End VaeScript.

(** More collaborators on which the embedded code can be run. *)
Module MoreSamples.

Import Py Ext.
Local Open Scope R_scope.

(** A [VAE] of [lc] latent channels whose encoder returns [c] channels. *)
Definition vae_with (lc c : nat) : Vae.VAE :=
  {| Vae._latent_channels := lc;
     Vae._stride := 4;
     Vae._encoder := Sample.zero_layer c;
     Vae._decoder := Sample.zero_layer 1;
     Vae._in_size := None |}.

(** A layer whose [forward] raises. *)
Definition failing_layer : Layer :=
  {| parameters := Sample.one_param;
     forward := fun _ => Raise (RuntimeError "out of memory") |}.

(** A [VAE] whose encoder raises. *)
Definition vae_failing_encoder : Vae.VAE :=
  {| Vae._latent_channels := 2;
     Vae._stride := 4;
     Vae._encoder := failing_layer;
     Vae._decoder := Sample.zero_layer 1;
     Vae._in_size := None |}.


Definition heap_of (self : Vae.VAE) : Vae.Heap Sample.torch :=
  @Vae.Build_Heap Sample.torch self 0%nat.

(** A batch of one image with one channel and 8 x 8 pixels. *)
Definition image8 : Tensor.t :=
  Tensor.Mk (Tensor.Shape 1 1 8 8) (fun _ _ _ _ => 0).

(** A data loader handed in as [debug_loader]. *)
Definition debug : Train.Loader :=
  {| Train.ld_dataset :=
       {| Train.ds_class := "Debug"; Train.ds_root := "";
          Train.ds_train := true; Train.ds_download := false;
          Train.ds_transform := Train.Single Train.ToTensor |};
     Train.ld_batch_size := 1;
     Train.ld_shuffle := false;
     Train.ld_num_workers := 0 |}.

Definition args_with_debug : Train.ReproduceArgs :=
  {| Train.n_epochs := 1;
     Train.batch_size := 128;
     Train.log_dir := "/tmp/run";
     Train.device := "cpu";
     Train.debug_loader := Some debug |}.

(** A [mse_loss] that returns zero. *)
Definition functional : Functional :=
  {| mse_loss := fun _ _ => Ok 0 |}.

(** The globals of models/vq_vae_2.py after a caller has assigned the
    module attributes [F] and [N_EPOCHS]. *)
Definition patched_globals : list (string * VqVae2.Binding) :=
  ("F"%string, VqVae2.BModuleFunctional functional)
  :: ("N_EPOCHS"%string, VqVae2.BInt 3)
  :: VqVae2.module_globals Sample.nn Sample.vaes.


End MoreSamples.

(* ================================================================== *)
(** ** Name resolution in models/vq_vae_2.py                          *)
(* ================================================================== *)

Module VqVae2Facts.

Import Py Ext VqVae2.

Section Globals.

Variable nn : Nn.
Variable vaes : Vaes.

Let g := module_globals nn vaes.

Lemma load_vaes : load_global g "vaes" = Ok (BModuleVaes vaes).
Proof. reflexivity. Qed.

Lemma load_nn : load_global g "nn" = Ok (BModuleNn nn).
Proof. reflexivity. Qed.

Lemma load_torch : load_global g "torch" = Ok BModuleTorch.
Proof. reflexivity. Qed.

(** A builtin is found behind the module globals. *)
Example load_super : load_global g "super" = Ok (BBuiltin "super").
Proof. vm_compute. reflexivity. Qed.

(** The three names the module uses without binding them. *)
Lemma load_Quantizer : load_global g "Quantizer" = Raise (NameError "Quantizer").
Proof. vm_compute. reflexivity. Qed.

Lemma load_F : load_global g "F" = Raise (NameError "F").
Proof. vm_compute. reflexivity. Qed.

Lemma load_N_EPOCHS : load_global g "N_EPOCHS" = Raise (NameError "N_EPOCHS").
Proof. vm_compute. reflexivity. Qed.

(** What [__init__] does once the three constructor calls before line 58
    have returned. *)
Lemma init_reaches_Quantizer (a : InitArgs) (eb et : Layer)
  (qt : QuantizerLayer) :
  Encoder vaes
    {| Ext.in_channels := in_channels a;
       Ext.out_channels := hidden_channels a;
       Ext.hidden_channels := hidden_channels a;
       Ext.residual_channels := residual_channels a;
       Ext.n_residual_blocks := n_residual_blocks a;
       Ext.stride := 2 |} = Ok eb ->
  Encoder vaes
    {| Ext.in_channels := hidden_channels a;
       Ext.out_channels := hidden_channels a;
       Ext.hidden_channels := hidden_channels a;
       Ext.residual_channels := residual_channels a;
       Ext.n_residual_blocks := n_residual_blocks a;
       Ext.stride := 2 |} = Ok et ->
  Quantizer vaes
    {| Ext.q_in_channels := hidden_channels a;
       Ext.n_embeddings := n_embeddings a;
       Ext.embedding_dim := embedding_dim a |} = Ok qt ->
  __init__ g a = Raise (NameError "Quantizer").
Proof.
  intros Hb Ht Hq. unfold __init__.
  rewrite load_vaes. cbn [bind as_vaes]. rewrite Hb. cbn [bind].
  rewrite Ht. cbn [bind]. rewrite Hq. cbn [bind].
  rewrite load_Quantizer. reflexivity.
Qed.

Lemma init_not_ok (a : InitArgs) : is_ok (__init__ g a) = false.
Proof.
  unfold __init__.
  rewrite load_vaes. cbn [bind as_vaes].
  destruct (Encoder vaes _) as [eb|e]; [cbn [bind]|reflexivity].
  destruct (Encoder vaes _) as [et|e]; [cbn [bind]|reflexivity].
  destruct (Quantizer vaes _) as [qt|e]; [cbn [bind]|reflexivity].
  rewrite load_Quantizer. reflexivity.
Qed.

Lemma forward_not_ok (self : VQVAE2) (x : Tensor.t) :
  is_ok (VQVAE2_forward g self x) = false.
Proof.
  unfold VQVAE2_forward.
  destruct (forward (_encoder_b self) x) as [eb|e]; [cbn [bind]|reflexivity].
  destruct (forward (_encoder_t self) eb) as [et|e]; [cbn [bind]|reflexivity].
  destruct (q_forward (_quantizer_t self) et) as [[qt lt]|e];
    [cbn [bind]|reflexivity].
  destruct (q_forward (_quantizer_b self) eb) as [[qb lb]|e];
    [cbn [bind]|reflexivity].
  destruct (forward (_decoder_t self) qt) as [dt|e]; [cbn [bind]|reflexivity].
  rewrite load_torch. cbn [bind as_torch].
  destruct (forward (_conv self) dt) as [cv|e]; [cbn [bind]|reflexivity].
  destruct (Tensor.cat1 cv qb) as [j|e]; [cbn [bind]|reflexivity].
  destruct (forward (_decoder_b self) j) as [xh|e]; [cbn [bind]|reflexivity].
  rewrite load_F. reflexivity.
Qed.

End Globals.

End VqVae2Facts.

(* ================================================================== *)
(** ** Construction and call of VQVAE2                                *)
(* ================================================================== *)

(** C1.  [VQVAE2(...)] returns no model: for every implementation of the
    imported modules and every choice of arguments, [__init__] ends in an
    exception; with constructors that succeed and the default arguments
    it is the [NameError] of line 58, where the bare name [Quantizer] is
    loaded although the module only binds [vaes]. *)
Theorem VQVAE2_init_raises :
  forall (nn : Ext.Nn) (vaes : Ext.Vaes) (a : VqVae2.InitArgs),
    Py.is_ok (VqVae2.__init__ (VqVae2.module_globals nn vaes) a) = false /\
    VqVae2.__init__ (VqVae2.module_globals Sample.nn Sample.vaes)
      VqVae2.default_args = Py.Raise (Py.NameError "Quantizer").
Proof.
  intros nn vaes a. split.
  - apply VqVae2Facts.init_not_ok.
  - eapply VqVae2Facts.init_reaches_Quantizer; reflexivity.
Qed.

(** C4.  No reconstruction comes out of the two-level hierarchy: building
    a [VQVAE2] and calling it on an input raises for every implementation
    of the imported modules, every choice of arguments and every input;
    on the sample collaborators, with the default arguments, the
    exception is the [NameError] raised by [__init__]. *)
Theorem VQVAE2_call_never_reconstructs :
  forall (nn : Ext.Nn) (vaes : Ext.Vaes) (a : VqVae2.InitArgs)
         (x : Tensor.t),
    Py.is_ok
      (VqVae2.construct_and_call (VqVae2.module_globals nn vaes) a x)
    = false /\
    VqVae2.construct_and_call
      (VqVae2.module_globals Sample.nn Sample.vaes)
      VqVae2.default_args Sample.image
    = Py.Raise (Py.NameError "Quantizer").
Proof.
  intros nn vaes a x. split.
  - unfold VqVae2.construct_and_call.
    pose proof (VqVae2Facts.init_not_ok nn vaes a) as H.
    destruct (VqVae2.__init__ _ a); [discriminate H | reflexivity].
  - unfold VqVae2.construct_and_call.
    rewrite (@VqVae2Facts.init_reaches_Quantizer Sample.nn Sample.vaes
               VqVae2.default_args _ _ _ eq_refl eq_refl eq_refl).
    reflexivity.
Qed.

(** C6.  [VQVAE2.forward] never returns a (reconstruction, loss) pair: on
    every instance and every input it ends in an exception, and whenever
    all the layer calls of lines 77-85 return, the exception is the
    [NameError] for [F], raised when the loss expression of line 86 is
    evaluated. *)
Theorem VQVAE2_forward_raises_NameError_F :
  forall (nn : Ext.Nn) (vaes : Ext.Vaes) (self : VqVae2.VQVAE2)
         (x : Tensor.t),
    Py.is_ok (VqVae2.VQVAE2_forward (VqVae2.module_globals nn vaes) self x)
    = false /\
    forall (encoded_b encoded_t quantized_t quantized_b decoded_t
            convolved joined xhat : Tensor.t) (vq_loss_t vq_loss_b : R),
      Ext.forward (VqVae2._encoder_b self) x = Py.Ok encoded_b ->
      Ext.forward (VqVae2._encoder_t self) encoded_b = Py.Ok encoded_t ->
      Ext.q_forward (VqVae2._quantizer_t self) encoded_t
        = Py.Ok (quantized_t, vq_loss_t) ->
      Ext.q_forward (VqVae2._quantizer_b self) encoded_b
        = Py.Ok (quantized_b, vq_loss_b) ->
      Ext.forward (VqVae2._decoder_t self) quantized_t = Py.Ok decoded_t ->
      Ext.forward (VqVae2._conv self) decoded_t = Py.Ok convolved ->
      Tensor.cat1 convolved quantized_b = Py.Ok joined ->
      Ext.forward (VqVae2._decoder_b self) joined = Py.Ok xhat ->
      VqVae2.VQVAE2_forward (VqVae2.module_globals nn vaes) self x
      = Py.Raise (Py.NameError "F").
Proof.
  intros nn vaes self x. split.
  - apply VqVae2Facts.forward_not_ok.
  - intros eb et qt qb dt cv j xh lt lb Heb Het Hqt Hqb Hdt Hcv Hj Hxh.
    unfold VqVae2.VQVAE2_forward.
    rewrite Heb. cbn [Py.bind]. rewrite Het. cbn [Py.bind].
    rewrite Hqt. cbn [Py.bind]. rewrite Hqb. cbn [Py.bind].
    rewrite Hdt. cbn [Py.bind].
    rewrite VqVae2Facts.load_torch. cbn [Py.bind VqVae2.as_torch].
    rewrite Hcv. cbn [Py.bind]. rewrite Hj. cbn [Py.bind].
    rewrite Hxh. cbn [Py.bind].
    rewrite VqVae2Facts.load_F. reflexivity.
Qed.

(** The layer calls of [forward] all return on the sample instance, and
    the call still ends in the [NameError] for [F]. *)
Lemma VQVAE2_forward_raises_NameError_F_witness :
  Py.is_ok
    (VqVae2.VQVAE2_forward
       (VqVae2.module_globals Sample.nn Sample.vaes)
       Sample.vq_model Sample.image) = false /\
  VqVae2.VQVAE2_forward
    (VqVae2.module_globals Sample.nn Sample.vaes)
    Sample.vq_model Sample.image
  = Py.Raise (Py.NameError "F").
Proof.
  destruct (VQVAE2_forward_raises_NameError_F
              Sample.nn Sample.vaes Sample.vq_model Sample.image)
    as [H1 H2].
  split; [exact H1|].
  eapply (H2 Sample.image Sample.image Sample.image Sample.image
             Sample.image Sample.image _ _ 0%R 0%R);
    reflexivity.
Defined.

(* ================================================================== *)
(** ** The reproduce scripts                                          *)
(* ================================================================== *)

(** [reproduce] of models/vae.py hands its argument [n_epochs] to the
    trainer it has wired up, once. *)
Lemma vae_reproduce_trains_n_epochs :
  forall (truthy : Train.Loader -> bool)
         (models_VAE : nat -> nat -> nat -> nat -> nat -> Py.result Vae.VAE)
         (a : Train.ReproduceArgs) (model : Vae.VAE)
         (log : list (Train.Event Vae.VAE)),
    models_VAE 1%nat 1%nat 2%nat 128%nat 32%nat = Py.Ok model ->
    exists t : Train.Trainer Vae.VAE,
      Train.vae_reproduce truthy models_VAE a log
      = (Py.Ok tt, log ++ [Train.InterleavedTrainAndEval t (Train.n_epochs a)])
      /\ Train.tr_model t = model
      /\ Train.opt_params (Train.tr_optimizer t) = Vae.VAE_parameters model
      /\ Train.sch_optimizer (Train.tr_lr_scheduler t) = Train.tr_optimizer t.
Proof.
  intros truthy models_VAE a model log Hm.
  unfold Train.vae_reproduce, Py.bindM, Py.lift.
  rewrite Hm. cbn beta iota.
  unfold Train.interleaved_train_and_eval.
  eexists. split; [reflexivity|]. cbn. repeat split.
Qed.

(** C2.  [reproduce] of models/vq_vae_2.py never runs the training loop:
    whatever [models.VQVAE2] does, and for every [n_epochs], the call
    ends in an exception and nothing has been logged by the trainer.
    With the class of that file as [models.VQVAE2] and the default
    arguments, the exception is the [NameError] of the constructor; with
    a constructor that returns a model, it is the [NameError] for
    [N_EPOCHS] of line 159. *)
Theorem vq_vae_2_reproduce_never_trains :
  forall (truthy : Train.Loader -> bool) (nn : Ext.Nn) (vaes : Ext.Vaes)
         (models_VQVAE2 : VqVae2.InitArgs -> Py.result VqVae2.VQVAE2)
         (a : Train.ReproduceArgs)
         (log : list (Train.Event VqVae2.VQVAE2)),
    let g := VqVae2.module_globals nn vaes in
    Py.is_ok (fst (Train.vq_vae_2_reproduce truthy g models_VQVAE2 a log))
    = false /\
    snd (Train.vq_vae_2_reproduce truthy g models_VQVAE2 a log) = log /\
    fst (Train.vq_vae_2_reproduce truthy
           (VqVae2.module_globals Sample.nn Sample.vaes)
           (VqVae2.__init__ (VqVae2.module_globals Sample.nn Sample.vaes))
           Train.default_reproduce_args [])
    = Py.Raise (Py.NameError "Quantizer") /\
    fst (Train.vq_vae_2_reproduce truthy g
           (fun _ => Py.Ok Sample.vq_model) a log)
    = Py.Raise (Py.NameError "N_EPOCHS").
Proof.
  intros truthy nn vaes models_VQVAE2 a log g.
  unfold Train.vq_vae_2_reproduce, Py.bindM, Py.lift.
  split; [|split; [|split]].
  - destruct (models_VQVAE2 _); [|reflexivity].
    subst g. rewrite VqVae2Facts.load_N_EPOCHS. reflexivity.
  - destruct (models_VQVAE2 _); [|reflexivity].
    subst g. rewrite VqVae2Facts.load_N_EPOCHS. reflexivity.
  - rewrite (@VqVae2Facts.init_reaches_Quantizer Sample.nn Sample.vaes
               _ _ _ _ eq_refl eq_refl eq_refl).
    reflexivity.
  - subst g. rewrite VqVae2Facts.load_N_EPOCHS. reflexivity.
Qed.

(* ================================================================== *)
(** ** Facts about the tensor operations                              *)
(* ================================================================== *)

Module TensorFacts.

Import Py Tensor.
Local Open Scope R_scope.

Lemma bdim_same (a : nat) : bdim a a = Some a.
Proof. unfold bdim. now rewrite Nat.eqb_refl. Qed.

Lemma bshape_same (s : shape) : bshape s s = Some s.
Proof. destruct s. unfold bshape. cbn [dN dC dH dW]. now rewrite !bdim_same. Qed.

Lemma bidx_in_range (d i : nat) : (i < d)%nat -> bidx d i = i.
Proof.
  intros H. unfold bidx. destruct (Nat.eqb_spec d 1) as [->|_]; [lia|reflexivity].
Qed.

(** A pointwise operator on two tensors of one shape returns a tensor of
    that shape, computed entry by entry. *)
Lemma binop_same_shape (f : R -> R -> R) (a b : t) :
  shp a = shp b ->
  exists c,
    binop f a b = Ok c /\
    shp c = shp a /\
    forall n ch h w,
      (n < dN (shp a))%nat -> (ch < dC (shp a))%nat ->
      (h < dH (shp a))%nat -> (w < dW (shp a))%nat ->
      at_ c n ch h w = f (at_ a n ch h w) (at_ b n ch h w).
Proof.
  intros E. unfold binop. rewrite <- E, bshape_same.
  eexists. split; [reflexivity|]. split; [reflexivity|].
  intros n ch h w Hn Hc Hh Hw. cbn [at_]. unfold bat. rewrite <- E.
  now rewrite !bidx_in_range.
Qed.

(** Splitting [2 * k] channels in chunks of [k] gives the two halves. *)
Lemma split1_halves (x : t) (k : nat) :
  (0 < k)%nat -> dC (shp x) = (2 * k)%nat ->
  split1 x k = Ok [narrow1 x 0 k; narrow1 x k k].
Proof.
  intros Hk HC. unfold split1. rewrite HC.
  destruct (Nat.eqb_spec k 0) as [->|_]; [lia|]. cbn [andb].
  assert (Hq : ((2 * k + k - 1) / k = 2)%nat).
  { symmetry. apply (Nat.div_unique _ k 2 (k - 1)); lia. }
  rewrite Hq. cbn [Nat.max seq List.map Nat.sub Nat.ltb Nat.leb].
  replace (k - (k * 2 - 2 * k))%nat with k by lia.
  now rewrite Nat.mul_0_l, Nat.mul_1_l.
Qed.

(** Five channels in chunks of two: three chunks, the last of one
    channel, which a two-name unpacking rejects. *)
Example split1_five_by_two :
  let x := Mk (Shape 1 5 1 1) (fun _ _ _ _ => 0) in
  match split1 x 2 with
  | Ok chunks => List.map (fun c => dC (shp c)) chunks
  | Raise _ => []
  end = [2; 2; 1]%nat /\
  is_ok (chunks <- split1 x 2 ;; unpack2 chunks)%py = false.
Proof. split; reflexivity. Qed.

(** A chunk size of zero is refused unless there is no channel. *)
Example split1_zero_size :
  is_ok (split1 (Mk (Shape 1 5 1 1) (fun _ _ _ _ => 0)) 0) = false.
Proof. reflexivity. Qed.

(** Concatenation adds the channels and refuses other mismatches. *)
Example cat1_shapes :
  let a := Mk (Shape 1 2 4 4) (fun _ _ _ _ => 0) in
  let b := Mk (Shape 1 3 4 4) (fun _ _ _ _ => 1) in
  let c := Mk (Shape 1 3 2 2) (fun _ _ _ _ => 1) in
  match cat1 a b with
  | Ok j => Some (shp j, at_ j 0 1 0 0, at_ j 0 2 0 0)
  | Raise _ => None
  end = Some (Shape 1 5 4 4, 0, 1) /\
  is_ok (cat1 a c) = false.
Proof. split; reflexivity. Qed.

Lemma sum_upto_ext (n : nat) (f g : nat -> R) :
  (forall i, (i < n)%nat -> f i = g i) -> sum_upto n f = sum_upto n g.
Proof.
  induction n as [|n IH]; intros H; cbn [sum_upto]; [reflexivity|].
  rewrite IH by (intros i Hi; apply H; lia). now rewrite H by lia.
Qed.

Lemma sum_upto_scal (n : nat) (a : R) (f : nat -> R) :
  sum_upto n (fun i => a * f i) = a * sum_upto n f.
Proof.
  induction n as [|n IH]; cbn [sum_upto]; [ring|]. rewrite IH. ring.
Qed.

End TensorFacts.

(* ================================================================== *)
(** ** Facts about VAE.forward and VAE.sample                         *)
(* ================================================================== *)

Module VaeFacts.

Import Py Ext Tensor Vae.
Local Open Scope R_scope.

Section Run.

Variable torch : Torch.

(** [forward] assigns [_in_size] before anything can raise, and changes
    nothing else of the instance. *)
Lemma forward_sets_in_size (self : VAE) (x : Tensor.t) (g : Gen torch) :
  self_ (snd (VAE_forward x {| self_ := self; gen := g |}))
  = set_in_size self (dH (shp x)).
Proof.
  unfold VAE_forward, bindM, read_self, write_self, lift, ret,
    torch_randn_like.
  cbn [self_ gen fst snd].
  repeat
    (match goal with
     | |- context [match ?e with _ => _ end] =>
         lazymatch e with
         | context [match _ with _ => _ end] => fail
         | _ => destruct e
         end
     end; cbn [self_ gen fst snd]);
    reflexivity.
Qed.

(** One run of [forward], when the encoder returns a tensor of
    [2 * _latent_channels] channels: the latents and the tensor that is
    averaged into [kl_div], entry by entry. *)
Lemma forward_run (self : VAE) (x enc : Tensor.t) (g : Gen torch) :
  (0 < _latent_channels self)%nat ->
  forward (_encoder self) x = Ok enc ->
  dC (shp enc) = (2 * _latent_channels self)%nat ->
  let k := _latent_channels self in
  let mean := narrow1 enc 0 k in
  let log_var := narrow1 enc k k in
  let eps := fst (randn torch (shp log_var) g) in
  let inside n c h w :=
    (n < dN (shp enc))%nat /\ (c < k)%nat /\
    (h < dH (shp enc))%nat /\ (w < dW (shp enc))%nat in
  exists latents d2,
    shp latents = shp mean /\
    (forall n c h w, inside n c h w ->
       at_ latents n c h w
       = at_ mean n c h w
         + sqrt (exp (at_ log_var n c h w)) * at_ eps n c h w) /\
    shp d2 = shp mean /\
    (forall n c h w, inside n c h w ->
       at_ d2 n c h w
       = 1 + at_ log_var n c h w - at_ mean n c h w ^ 2
         - exp (at_ log_var n c h w)) /\
    fst (VAE_forward x {| self_ := self; gen := g |})
    = (decoded <- forward (_decoder self) latents ;;
       Ok (decoded, scalar_mul1 (- 0.5) (mean123 d2)))%py.
Proof.
  intros Hk Henc HC k mean log_var eps inside.
  set (var := texp log_var).
  assert (Hshape : shp eps = shp var) by apply randn_shape.
  destruct (@TensorFacts.binop_same_shape Rmult (tsqrt var) eps)
    as (scaled & Hmul & Hs_scaled & Hp_scaled); [now rewrite Hshape|].
  destruct (@TensorFacts.binop_same_shape Rplus mean scaled)
    as (latents & Hadd & Hs_lat & Hp_lat); [now rewrite Hs_scaled|].
  destruct (@TensorFacts.binop_same_shape Rminus
              (scalar_add 1 log_var) (pow2 mean))
    as (d1 & Hd1 & Hs_d1 & Hp_d1); [reflexivity|].
  destruct (@TensorFacts.binop_same_shape Rminus d1 var)
    as (d2 & Hd2 & Hs_d2 & Hp_d2); [now rewrite Hs_d1|].
  exists latents, d2.
  split; [exact Hs_lat|].
  split.
  { intros n c h w (Hn & Hc & Hh & Hw).
    rewrite Hp_lat by assumption.
    rewrite Hp_scaled by assumption.
    reflexivity. }
  split; [now rewrite Hs_d2, Hs_d1|].
  split.
  { intros n c h w (Hn & Hc & Hh & Hw).
    rewrite Hp_d2 by (rewrite Hs_d1; assumption).
    rewrite Hp_d1 by assumption.
    reflexivity. }
  unfold VAE_forward, bindM, read_self, write_self, lift, ret,
    torch_randn_like.
  cbn [self_ gen set_in_size _encoder _decoder _latent_channels].
  rewrite Henc.
  rewrite (TensorFacts.split1_halves enc Hk HC).
  cbn [unpack2].
  fold k mean log_var var.
  cbn [self_ gen].
  replace (randn torch (shp var) g)
    with (eps, snd (randn torch (shp var) g))
    by (unfold eps; symmetry; apply surjective_pairing).
  unfold mul, add, sub in *.
  rewrite Hmul, Hadd, Hd1, Hd2.
  destruct (forward (_decoder self) latents); reflexivity.
Qed.

End Run.

End VaeFacts.

(* ================================================================== *)
(** ** VAE.forward: reparameterized sampling and the KL term          *)
(* ================================================================== *)

(** C3.  [VAE.forward] implements reparameterized sampling.  When the
    encoder returns [2 * latent_channels] channels, [torch.split] yields
    exactly two tensors of [latent_channels] channels, the lower half
    [mean] and the upper half [log_var]; with [eps] the tensor drawn by
    [torch.randn_like], the latents are
    [mean + sqrt (exp log_var) * eps] entry by entry, and [forward]
    returns the decoder's output on the latents paired with [kl_div]
    (or the decoder's exception). *)
Theorem VAE_forward_reparameterized :
  forall (torch : Ext.Torch) (self : Vae.VAE) (x enc : Tensor.t)
         (g : Ext.Gen torch),
    (0 < Vae._latent_channels self)%nat ->
    Ext.forward (Vae._encoder self) x = Py.Ok enc ->
    Tensor.dC (Tensor.shp enc) = (2 * Vae._latent_channels self)%nat ->
    let k := Vae._latent_channels self in
    let mean := Tensor.narrow1 enc 0 k in
    let log_var := Tensor.narrow1 enc k k in
    let eps := fst (Ext.randn torch (Tensor.shp log_var) g) in
    Tensor.split1 enc k = Py.Ok [mean; log_var] /\
    Tensor.dC (Tensor.shp mean) = k /\
    Tensor.dC (Tensor.shp log_var) = k /\
    exists (latents : Tensor.t) (kl_div : Tensor.t1),
      Tensor.shp latents = Tensor.shp mean /\
      Tensor.shp eps = Tensor.shp latents /\
      (forall n c h w,
         (n < Tensor.dN (Tensor.shp enc))%nat -> (c < k)%nat ->
         (h < Tensor.dH (Tensor.shp enc))%nat ->
         (w < Tensor.dW (Tensor.shp enc))%nat ->
         Tensor.at_ latents n c h w
         = (Tensor.at_ mean n c h w
            + sqrt (exp (Tensor.at_ log_var n c h w))
              * Tensor.at_ eps n c h w)%R) /\
      fst (Vae.VAE_forward x {| Vae.self_ := self; Vae.gen := g |})
      = (decoded <- Ext.forward (Vae._decoder self) latents ;;
         Py.Ok (decoded, kl_div))%py.
Proof.
  intros torch self x enc g Hk Henc HC k mean log_var eps.
  split; [exact (TensorFacts.split1_halves enc Hk HC)|].
  split; [reflexivity|]. split; [reflexivity|].
  destruct (@VaeFacts.forward_run torch self x enc g Hk Henc HC)
    as (latents & d2 & Hs & Hp & _ & _ & Hrun).
  exists latents, (Tensor.scalar_mul1 (- 0.5) (Tensor.mean123 d2)).
  split; [exact Hs|].
  split; [rewrite Hs; apply Ext.randn_shape|].
  split; [|exact Hrun].
  intros n c h w Hn Hc Hh Hw. apply Hp. repeat split; assumption.
Qed.

(** The sample model on the sample image: the encoder returns four
    channels, which split into two halves of two. *)
Lemma VAE_forward_reparameterized_witness :
  Tensor.split1 Sample.encoded_image 2
  = Py.Ok [Tensor.narrow1 Sample.encoded_image 0 2;
           Tensor.narrow1 Sample.encoded_image 2 2] /\
  exists (latents : Tensor.t) (kl_div : Tensor.t1),
    fst (Vae.VAE_forward Sample.image Sample.fresh_heap)
    = (decoded <- Ext.forward (Vae._decoder Sample.vae_model) latents ;;
       Py.Ok (decoded, kl_div))%py.
Proof.
  destruct (@VAE_forward_reparameterized Sample.torch Sample.vae_model
              Sample.image Sample.encoded_image 0%nat)
    as (Hsplit & _ & _ & latents & kl_div & _ & _ & _ & Hrun).
  - cbn. lia.
  - reflexivity.
  - reflexivity.
  - split; [exact Hsplit|]. exists latents, kl_div. exact Hrun.
Defined.

(** C8.  The second value returned by [VAE.forward] is the closed-form KL
    divergence from [N(mean, exp log_var)] to the standard normal,
    averaged over channels and pixels: it has one entry per batch
    element, which is [-0.5] times the average of
    [1 + log_var - mean^2 - exp log_var] and equals the average of
    [kl_gauss mean (exp log_var)]. *)
Theorem VAE_forward_kl_closed_form :
  forall (torch : Ext.Torch) (self : Vae.VAE) (x enc : Tensor.t)
         (g : Ext.Gen torch),
    (0 < Vae._latent_channels self)%nat ->
    Ext.forward (Vae._encoder self) x = Py.Ok enc ->
    Tensor.dC (Tensor.shp enc) = (2 * Vae._latent_channels self)%nat ->
    let k := Vae._latent_channels self in
    let H := Tensor.dH (Tensor.shp enc) in
    let W := Tensor.dW (Tensor.shp enc) in
    let mean n c h w := Tensor.at_ enc n c h w in
    let log_var n c h w := Tensor.at_ enc n (k + c)%nat h w in
    exists (latents : Tensor.t) (kl_div : Tensor.t1),
      fst (Vae.VAE_forward x {| Vae.self_ := self; Vae.gen := g |})
      = (decoded <- Ext.forward (Vae._decoder self) latents ;;
         Py.Ok (decoded, kl_div))%py /\
      Tensor.len kl_div = Tensor.dN (Tensor.shp enc) /\
      forall n, (n < Tensor.dN (Tensor.shp enc))%nat ->
        Tensor.at1 kl_div n
        = (- 0.5 * Spec.average_chw k H W (fun c h w =>
             1 + log_var n c h w - mean n c h w ^ 2
             - exp (log_var n c h w)))%R /\
        Tensor.at1 kl_div n
        = Spec.average_chw k H W (fun c h w =>
            Spec.kl_gauss (mean n c h w) (exp (log_var n c h w))).
Proof.
  intros torch self x enc g Hk Henc HC k H W mean log_var.
  destruct (@VaeFacts.forward_run torch self x enc g Hk Henc HC)
    as (latents & d2 & _ & _ & Hs & Hp & Hrun).
  exists latents, (Tensor.scalar_mul1 (- 0.5) (Tensor.mean123 d2)).
  split; [exact Hrun|].
  split; [cbn [Tensor.len Tensor.scalar_mul1 Tensor.mean123]; now rewrite Hs|].
  intros n Hn.
  assert (E : Tensor.at1 (Tensor.scalar_mul1 (- 0.5) (Tensor.mean123 d2)) n
              = (- 0.5 * Spec.average_chw k H W (fun c h w =>
                   1 + log_var n c h w - mean n c h w ^ 2
                   - exp (log_var n c h w)))%R).
  { cbn [Tensor.at1 Tensor.scalar_mul1 Tensor.mean123]. rewrite Hs.
    cbn [Tensor.shp Tensor.narrow1 Tensor.dC Tensor.dH Tensor.dW].
    fold k H W. unfold Spec.average_chw. f_equal. f_equal.
    apply TensorFacts.sum_upto_ext; intros c Hc.
    apply TensorFacts.sum_upto_ext; intros h Hh.
    apply TensorFacts.sum_upto_ext; intros w Hw.
    rewrite Hp by (repeat split; assumption). reflexivity. }
  split; [exact E|].
  rewrite E. unfold Spec.average_chw, Rdiv.
  rewrite <- Rmult_assoc. f_equal.
  rewrite <- TensorFacts.sum_upto_scal.
  apply TensorFacts.sum_upto_ext; intros c Hc.
  rewrite <- TensorFacts.sum_upto_scal.
  apply TensorFacts.sum_upto_ext; intros h Hh.
  rewrite <- TensorFacts.sum_upto_scal.
  apply TensorFacts.sum_upto_ext; intros w Hw.
  unfold Spec.kl_gauss. rewrite ln_exp. lra.
Qed.

(** The KL term of the sample model on the sample image. *)
Lemma VAE_forward_kl_closed_form_witness :
  exists (latents : Tensor.t) (kl_div : Tensor.t1),
    fst (Vae.VAE_forward Sample.image Sample.fresh_heap)
    = (decoded <- Ext.forward (Vae._decoder Sample.vae_model) latents ;;
       Py.Ok (decoded, kl_div))%py /\
    Tensor.len kl_div = 1%nat /\
    Tensor.at1 kl_div 0
    = Spec.average_chw 2 4 4 (fun _ _ _ => Spec.kl_gauss 0 (exp 0)).
Proof.
  destruct (@VAE_forward_kl_closed_form Sample.torch Sample.vae_model
              Sample.image Sample.encoded_image 0%nat)
    as (latents & kl_div & Hrun & Hlen & Hkl).
  - cbn. lia.
  - reflexivity.
  - reflexivity.
  - exists latents, kl_div. split; [exact Hrun|]. split; [exact Hlen|].
    destruct (Hkl 0%nat) as [_ E]; [cbn; lia|exact E].
Defined.

(* ================================================================== *)
(** ** VAE.sample                                                     *)
(* ================================================================== *)

(** C7.  [VAE.sample] is only defined after a call to [VAE.forward].
    On a freshly constructed model that has a parameter it raises the
    [AttributeError] for [_in_size] and leaves the state as it was.  A
    constructed model has stride 4; and on every instance of stride 4
    with a parameter, after a call of [forward] on an input of spatial
    size [s] (whether that call returned or raised), [sample n_samples]
    draws latents of shape [(n_samples, latent_channels, s / 4, s / 4)]
    and returns what the decoder returns on them. *)
Theorem VAE_sample_needs_forward :
  forall (torch : Ext.Torch),
    (forall (vaes : Ext.Vaes) (ic oc lc hc rc : nat) (model : Vae.VAE)
            (g : Ext.Gen torch) (n_samples : nat),
        Vae.__init__ vaes ic oc lc hc rc = Py.Ok model ->
        Vae.VAE_parameters model <> [] ->
        Vae._stride model = 4%nat /\
        Vae._latent_channels model = lc /\
        Vae.VAE_sample n_samples {| Vae.self_ := model; Vae.gen := g |}
        = (Py.Raise (Py.AttributeError "_in_size"),
           {| Vae.self_ := model; Vae.gen := g |})) /\
    (forall (self : Vae.VAE) (x : Tensor.t) (g : Ext.Gen torch)
            (n_samples : nat),
        Vae._stride self = 4%nat ->
        Vae.VAE_parameters self <> [] ->
        let after := snd (Vae.VAE_forward x
                            {| Vae.self_ := self; Vae.gen := g |}) in
        let s := Tensor.dH (Tensor.shp x) in
        let shape :=
          Tensor.Shape n_samples (Vae._latent_channels self)
                       (s / 4) (s / 4) in
        let latents := fst (Ext.randn torch shape (Vae.gen after)) in
        Tensor.shp latents = shape /\
        fst (Vae.VAE_sample n_samples after)
        = Ext.forward (Vae._decoder self) latents).
Proof.
  intros torch. split.
  - intros vaes ic oc lc hc rc model g n Hinit Hpar.
    unfold Vae.__init__ in Hinit.
    destruct (Ext.Encoder vaes _) as [enc|e]; [|discriminate Hinit].
    destruct (Ext.Decoder vaes _) as [dec|e]; [|discriminate Hinit].
    cbn [Py.bind] in Hinit. injection Hinit as <-.
    split; [reflexivity|]. split; [reflexivity|].
    unfold Vae.VAE_sample, Py.bindM, Vae.read_self, Py.lift.
    cbn [Vae.self_].
    destruct (Vae.VAE_parameters _) as [|p ps]; [now contradiction Hpar|].
    reflexivity.
  - intros self x g n Hstride Hpar after s shape latents.
    split; [apply Ext.randn_shape|].
    pose proof (@VaeFacts.forward_sets_in_size torch self x g) as Hself.
    fold after in Hself. subst latents shape.
    destruct after as [self' g']. cbn [Vae.self_ Vae.gen] in *. subst self'.
    unfold Vae.VAE_sample, Py.bindM, Vae.read_self, Py.lift,
      Vae.torch_randn.
    cbn [Vae.self_ Vae.gen].
    change (Vae.VAE_parameters (Vae.set_in_size self (Tensor.dH (Tensor.shp x))))
      with (Vae.VAE_parameters self).
    destruct (Vae.VAE_parameters self) as [|p ps]; [now contradiction Hpar|].
    cbn [Py.next Vae.get_in_size Vae.set_in_size Vae._in_size
         Vae._stride Vae._latent_channels Vae._decoder].
    rewrite Hstride. change (2 ^ (4 / 2))%nat with 4%nat. fold s.
    destruct (Ext.randn torch _ g') as [l g'']. reflexivity.
Qed.

(** The sample model: [sample] raises before [forward] has run, and
    returns a batch of three images after [forward] on the 4 x 4 image. *)
Lemma VAE_sample_needs_forward_witness :
  fst (Vae.VAE_sample 3 Sample.fresh_heap)
  = Py.Raise (Py.AttributeError "_in_size") /\
  Py.is_ok
    (fst (Vae.VAE_sample 3
            (snd (Vae.VAE_forward Sample.image Sample.fresh_heap))))
  = true.
Proof.
  destruct (VAE_sample_needs_forward Sample.torch) as [Hfresh Hafter].
  split.
  - destruct (Hfresh Sample.vaes 1%nat 1%nat 2%nat 128%nat 32%nat
                Sample.vae_model 0%nat 3%nat) as (_ & _ & E).
    + reflexivity.
    + discriminate.
    + unfold Sample.fresh_heap. rewrite E. reflexivity.
  - destruct (Hafter Sample.vae_model Sample.image 0%nat 3%nat) as [_ E].
    + reflexivity.
    + discriminate.
    + unfold Sample.fresh_heap. rewrite E. reflexivity.
Defined.

(* ================================================================== *)
(** ** The straight-through estimator                                 *)
(* ================================================================== *)

Module StraightThroughFacts.

Import StraightThrough.
Local Open Scope R_scope.

Lemma nearest_in (cb : list (list R)) :
  forall best v, In (nearest best cb v) (best :: cb).
Proof.
  induction cb as [|e rest IH]; intros best v; cbn [nearest].
  - now left.
  - destruct (Rlt_dec _ _).
    + right. apply IH.
    + destruct (IH best v) as [<-|Hin]; [now left|right; now right].
Qed.

Lemma zip_straight_through (x : list Dual) :
  forall q, List.length q = List.length x ->
    let y := zip_with (fun xi qi => dadd xi (detach (dsub (const qi) xi)))
               x q in
    List.map tan y = List.map tan x /\ List.map val y = q.
Proof.
  induction x as [|xi x IH]; intros [|qi q] Hlen; try discriminate Hlen.
  - now split.
  - cbn [zip_with List.map]. injection Hlen as Hlen.
    destruct (IH q Hlen) as [Ht Hv].
    split; f_equal; try assumption; cbn [tan val dadd detach dsub const]; ring.
Qed.

End StraightThroughFacts.

(** C5.  Vector quantization uses a straight-through estimator: for
    every input of the quantizer and every direction of differentiation
    carried by it, the derivative of the quantized output is the
    derivative of the input (the Jacobian is the identity), while the
    value of the output is the nearest codebook entry. *)
Theorem quantize_straight_through :
  forall (first : list R) (others : list (list R))
         (x : list StraightThrough.Dual),
    (forall e, In e (first :: others) -> List.length e = List.length x) ->
    List.map StraightThrough.tan (StraightThrough.quantize first others x)
    = List.map StraightThrough.tan x /\
    List.map StraightThrough.val (StraightThrough.quantize first others x)
    = StraightThrough.nearest first others
        (List.map StraightThrough.val x).
Proof.
  intros first others x Hlen. unfold StraightThrough.quantize.
  apply StraightThroughFacts.zip_straight_through.
  apply Hlen, StraightThroughFacts.nearest_in.
Qed.

(** A codebook of two entries of dimension two, and an input that moves
    along the direction [(1, 1)]. *)
Lemma quantize_straight_through_witness :
  List.map StraightThrough.tan
    (StraightThrough.quantize [1; 2]%R [[3; 4]%R]
       [ {| StraightThrough.val := 0; StraightThrough.tan := 1 |};
         {| StraightThrough.val := 0; StraightThrough.tan := 1 |} ])
  = [1; 1]%R.
Proof.
  apply (@quantize_straight_through [1; 2]%R [[3; 4]%R]
           [ {| StraightThrough.val := 0; StraightThrough.tan := 1 |};
             {| StraightThrough.val := 0; StraightThrough.tan := 1 |} ]).
  intros e [<-|[<-|[]]]; reflexivity.
Defined.

(* ================================================================== *)
(** ** Further facts about VAE.forward                                *)
(* ================================================================== *)

Module VaeMoreFacts.

Import Py Ext Tensor Vae.
Local Open Scope R_scope.

(** At most [k] channels in chunks of [k]: one chunk. *)
Lemma split1_one (x : t) (k : nat) :
  (0 < k)%nat -> (dC (shp x) <= k)%nat ->
  split1 x k = Ok [narrow1 x 0 (dC (shp x))].
Proof.
  intros Hk HC. unfold split1.
  destruct (Nat.eqb_spec k 0) as [->|_]; [lia|]. cbn [andb].
  assert (Hq : ((dC (shp x) + k - 1) / k <= 1)%nat).
  { apply Nat.lt_succ_r. apply Nat.Div0.div_lt_upper_bound. lia. }
  replace (Nat.max ((dC (shp x) + k - 1) / k) 1) with 1%nat by lia.
  cbn [seq List.map Nat.sub Nat.ltb Nat.leb].
  replace (k - (k * 1 - dC (shp x)))%nat with (dC (shp x)) by lia.
  now rewrite Nat.mul_0_l.
Qed.

(** More than [k] and at most [2 * k] channels: two chunks, the second
    one holding what is left. *)
Lemma split1_two (x : t) (k : nat) :
  (k < dC (shp x))%nat -> (dC (shp x) <= 2 * k)%nat ->
  split1 x k = Ok [narrow1 x 0 k; narrow1 x k (dC (shp x) - k)].
Proof.
  intros Hlo Hhi. unfold split1.
  destruct (Nat.eqb_spec k 0) as [->|_]; [lia|]. cbn [andb].
  assert (Hq : ((dC (shp x) + k - 1) / k = 2)%nat).
  { symmetry. apply (Nat.div_unique _ k 2 (dC (shp x) - k - 1)); lia. }
  rewrite Hq. cbn [Nat.max seq List.map Nat.sub Nat.ltb Nat.leb].
  replace (k - (k * 2 - dC (shp x)))%nat with (dC (shp x) - k)%nat by lia.
  now rewrite Nat.mul_0_l, Nat.mul_1_l.
Qed.

(** More than [2 * k] channels: at least three chunks. *)
Lemma split1_many (x : t) (k : nat) :
  (0 < k)%nat -> (2 * k < dC (shp x))%nat ->
  exists a b c rest, split1 x k = Ok (a :: b :: c :: rest).
Proof.
  intros Hk HC. unfold split1.
  destruct (Nat.eqb_spec k 0) as [->|_]; [lia|]. cbn [andb].
  assert (Hq : (3 <= (dC (shp x) + k - 1) / k)%nat).
  { apply Nat.div_le_lower_bound; lia. }
  destruct (Nat.max ((dC (shp x) + k - 1) / k) 1) as [|[|[|m]]] eqn:E;
    try lia.
  cbn [seq List.map]. now eexists _, _, _, _.
Qed.


End VaeMoreFacts.



(** X2.  When the encoder returns at most [latent_channels] channels, or
    more than twice as many, [VAE.forward] raises a [ValueError] from the
    two-name unpacking of line 56; it has then assigned [_in_size] and
    has drawn no random numbers. *)
Theorem VAE_forward_wrong_channels_ValueError :
  forall (torch : Ext.Torch) (self : Vae.VAE) (x enc : Tensor.t)
         (g : Ext.Gen torch),
    (0 < Vae._latent_channels self)%nat ->
    Ext.forward (Vae._encoder self) x = Py.Ok enc ->
    (Tensor.dC (Tensor.shp enc) <= Vae._latent_channels self)%nat \/
    (2 * Vae._latent_channels self < Tensor.dC (Tensor.shp enc))%nat ->
    exists msg,
      Vae.VAE_forward x {| Vae.self_ := self; Vae.gen := g |}
      = (Py.Raise (Py.ValueError msg),
         {| Vae.self_ := Vae.set_in_size self (Tensor.dH (Tensor.shp x));
            Vae.gen := g |}).
Proof.
  intros torch self x enc g Hk Henc HC.
  unfold Vae.VAE_forward, Py.bindM, Vae.read_self, Vae.write_self, Py.lift.
  cbn [Vae.self_ Vae.gen Vae.set_in_size Vae._encoder
       Vae._latent_channels].
  rewrite Henc.
  destruct HC as [HC|HC].
  - rewrite (VaeMoreFacts.split1_one enc Hk HC). cbn [Py.unpack2].
    eexists. reflexivity.
  - destruct (VaeMoreFacts.split1_many enc Hk HC) as (a & b & c & r & ->).
    cbn [Py.unpack2]. eexists. reflexivity.
Qed.

Lemma VAE_forward_wrong_channels_ValueError_witness :
  Py.is_ok
    (fst (Vae.VAE_forward Sample.image
            (MoreSamples.heap_of (MoreSamples.vae_with 2 5)))) = false.
Proof.
  destruct (@VAE_forward_wrong_channels_ValueError Sample.torch
              (MoreSamples.vae_with 2 5) Sample.image
              (Tensor.Mk (Tensor.Shape 1 5 4 4) (fun _ _ _ _ => 0%R))
              0%nat) as [msg E].
  - cbn. lia.
  - reflexivity.
  - right. cbn. lia.
  - unfold MoreSamples.heap_of. rewrite E. reflexivity.
Defined.

(** X3.  When the encoder returns [C] channels with
    [latent_channels + 1 < C < 2 * latent_channels], the split gives two
    chunks of different sizes and [VAE.forward] raises a [RuntimeError]
    when it adds them on line 58, after the noise has been drawn: the
    generator has advanced by one draw of [C - latent_channels]
    channels. *)
Theorem VAE_forward_uneven_channels_RuntimeError :
  forall (torch : Ext.Torch) (self : Vae.VAE) (x enc : Tensor.t)
         (g : Ext.Gen torch),
    Ext.forward (Vae._encoder self) x = Py.Ok enc ->
    (Vae._latent_channels self + 1 < Tensor.dC (Tensor.shp enc))%nat ->
    (Tensor.dC (Tensor.shp enc) < 2 * Vae._latent_channels self)%nat ->
    let k := Vae._latent_channels self in
    let drawn :=
      Tensor.Shape (Tensor.dN (Tensor.shp enc))
                   (Tensor.dC (Tensor.shp enc) - k)
                   (Tensor.dH (Tensor.shp enc))
                   (Tensor.dW (Tensor.shp enc)) in
    exists msg,
      Vae.VAE_forward x {| Vae.self_ := self; Vae.gen := g |}
      = (Py.Raise (Py.RuntimeError msg),
         {| Vae.self_ := Vae.set_in_size self (Tensor.dH (Tensor.shp x));
            Vae.gen := snd (Ext.randn torch drawn g) |}).
Proof.
  intros torch self x enc g Henc Hlo Hhi k drawn.
  unfold Vae.VAE_forward, Py.bindM, Vae.read_self, Vae.write_self, Py.lift,
    Vae.torch_randn_like.
  cbn [Vae.self_ Vae.gen Vae.set_in_size Vae._encoder
       Vae._latent_channels].
  rewrite Henc. fold k.
  rewrite (@VaeMoreFacts.split1_two enc k) by (subst k; lia).
  cbn [Py.unpack2 Vae.self_ Vae.gen].
  set (mean := Tensor.narrow1 enc 0 k).
  set (log_var := Tensor.narrow1 enc k (Tensor.dC (Tensor.shp enc) - k)).
  set (var := Tensor.texp log_var).
  change (Tensor.shp var) with drawn.
  pose proof (Ext.randn_shape torch drawn g) as Hshape.
  destruct (Ext.randn torch drawn g) as [eps g'].
  cbn [fst snd] in *. cbv beta iota.
  destruct (@TensorFacts.binop_same_shape Rmult (Tensor.tsqrt var) eps)
    as (scaled & Hmul & Hs_scaled & _); [now rewrite Hshape|].
  unfold Tensor.mul. rewrite Hmul.
  assert (Hb : Tensor.bdim k (Tensor.dC (Tensor.shp enc) - k) = None).
  { unfold Tensor.bdim.
    destruct (Nat.eqb_spec k (Tensor.dC (Tensor.shp enc) - k)); [lia|].
    destruct (Nat.eqb_spec k 1); [lia|].
    destruct (Nat.eqb_spec (Tensor.dC (Tensor.shp enc) - k) 1); [lia|].
    reflexivity. }
  assert (Hbs : Tensor.bshape (Tensor.shp mean)
                  (Tensor.shp (Tensor.tsqrt var)) = None).
  { unfold Tensor.bshape.
    destruct (Tensor.bdim (Tensor.dN (Tensor.shp mean)) _); [|reflexivity].
    change (Tensor.bdim (Tensor.dC (Tensor.shp mean))
              (Tensor.dC (Tensor.shp (Tensor.tsqrt var))))
      with (Tensor.bdim k (Tensor.dC (Tensor.shp enc) - k)).
    rewrite Hb. reflexivity. }
  unfold Tensor.add, Tensor.binop. rewrite Hs_scaled, Hbs.
  eexists; reflexivity.
Qed.

Lemma VAE_forward_uneven_channels_RuntimeError_witness :
  Py.is_ok
    (fst (Vae.VAE_forward Sample.image
            (MoreSamples.heap_of (MoreSamples.vae_with 4 6)))) = false /\
  Vae.gen (snd (Vae.VAE_forward Sample.image
                  (MoreSamples.heap_of (MoreSamples.vae_with 4 6))))
  = 1%nat.
Proof.
  destruct (@VAE_forward_uneven_channels_RuntimeError Sample.torch
              (MoreSamples.vae_with 4 6) Sample.image
              (Tensor.Mk (Tensor.Shape 1 6 4 4) (fun _ _ _ _ => 0%R))
              0%nat) as [msg E].
  - reflexivity.
  - cbn. lia.
  - cbn. lia.
  - unfold MoreSamples.heap_of. rewrite E. split; reflexivity.
Defined.

(* ================================================================== *)
(** ** Broadcasting over the channel dimension                        *)
(* ================================================================== *)

Module BroadcastFacts.

Import Py Tensor.
Local Open Scope R_scope.

Lemma bdim_one_r (a : nat) : bdim a 1 = Some a.
Proof.
  unfold bdim. destruct (Nat.eqb_spec a 1) as [->|_]; reflexivity.
Qed.

Lemma bdim_one_l (a : nat) : bdim 1 a = Some a.
Proof.
  unfold bdim. destruct (Nat.eqb_spec 1 a) as [<-|_]; reflexivity.
Qed.

(** A tensor of one channel on the right is read at channel 0. *)
Lemma binop_bcast_right (f : R -> R -> R) (a b : t) :
  dN (shp a) = dN (shp b) -> dH (shp a) = dH (shp b) ->
  dW (shp a) = dW (shp b) -> dC (shp b) = 1%nat ->
  exists c,
    binop f a b = Ok c /\
    shp c = shp a /\
    forall n ch h w,
      (n < dN (shp a))%nat -> (ch < dC (shp a))%nat ->
      (h < dH (shp a))%nat -> (w < dW (shp a))%nat ->
      at_ c n ch h w = f (at_ a n ch h w) (at_ b n 0%nat h w).
Proof.
  intros HN HH HW HC. unfold binop, bshape.
  rewrite <- HN, <- HH, <- HW, HC, !TensorFacts.bdim_same, bdim_one_r.
  eexists. split; [reflexivity|]. split; [now destruct (shp a)|].
  intros n ch h w Hn Hc Hh Hw. cbn [at_]. unfold bat.
  rewrite <- HN, <- HH, <- HW, HC.
  change (bidx 1 ch) with 0%nat.
  rewrite (TensorFacts.bidx_in_range Hn), (TensorFacts.bidx_in_range Hc),
    (TensorFacts.bidx_in_range Hh), (TensorFacts.bidx_in_range Hw).
  reflexivity.
Qed.

(** A tensor of one channel on the left is read at channel 0. *)
Lemma binop_bcast_left (f : R -> R -> R) (a b : t) :
  dN (shp a) = dN (shp b) -> dH (shp a) = dH (shp b) ->
  dW (shp a) = dW (shp b) -> dC (shp a) = 1%nat ->
  exists c,
    binop f a b = Ok c /\
    shp c = shp b /\
    forall n ch h w,
      (n < dN (shp b))%nat -> (ch < dC (shp b))%nat ->
      (h < dH (shp b))%nat -> (w < dW (shp b))%nat ->
      at_ c n ch h w = f (at_ a n 0%nat h w) (at_ b n ch h w).
Proof.
  intros HN HH HW HC. unfold binop, bshape.
  rewrite HN, HH, HW, HC, !TensorFacts.bdim_same, bdim_one_l.
  eexists. split; [reflexivity|]. split; [now destruct (shp b)|].
  intros n ch h w Hn Hc Hh Hw. cbn [at_]. unfold bat.
  rewrite HN, HH, HW, HC.
  change (bidx 1 ch) with 0%nat.
  rewrite (TensorFacts.bidx_in_range Hn), (TensorFacts.bidx_in_range Hc),
    (TensorFacts.bidx_in_range Hh), (TensorFacts.bidx_in_range Hw).
  reflexivity.
Qed.

End BroadcastFacts.

(** X4.  [VAE.forward] does not notice an encoder that returns
    [latent_channels + 1] channels (with [latent_channels >= 2]): the
    split gives [latent_channels] channels of mean and a single channel
    of log-variance, a single channel of noise is drawn, and both are
    broadcast over all the latent channels. *)
Theorem VAE_forward_broadcasts_single_log_var :
  forall (torch : Ext.Torch) (self : Vae.VAE) (x enc : Tensor.t)
         (g : Ext.Gen torch),
    (2 <= Vae._latent_channels self)%nat ->
    Ext.forward (Vae._encoder self) x = Py.Ok enc ->
    Tensor.dC (Tensor.shp enc) = (Vae._latent_channels self + 1)%nat ->
    let k := Vae._latent_channels self in
    let mean := Tensor.narrow1 enc 0 k in
    let log_var := Tensor.narrow1 enc k 1 in
    let eps := fst (Ext.randn torch (Tensor.shp log_var) g) in
    exists (latents : Tensor.t) (kl_div : Tensor.t1),
      Tensor.shp latents = Tensor.shp mean /\
      (forall n c h w,
         (n < Tensor.dN (Tensor.shp enc))%nat -> (c < k)%nat ->
         (h < Tensor.dH (Tensor.shp enc))%nat ->
         (w < Tensor.dW (Tensor.shp enc))%nat ->
         Tensor.at_ latents n c h w
         = (Tensor.at_ enc n c h w
            + sqrt (exp (Tensor.at_ enc n k h w))
              * Tensor.at_ eps n 0%nat h w)%R) /\
      fst (Vae.VAE_forward x {| Vae.self_ := self; Vae.gen := g |})
      = (decoded <- Ext.forward (Vae._decoder self) latents ;;
         Py.Ok (decoded, kl_div))%py.
Proof.
  intros torch self x enc g Hk Henc HC k mean log_var eps.
  set (var := Tensor.texp log_var).
  assert (Hshape : Tensor.shp eps = Tensor.shp var)
    by apply Ext.randn_shape.
  destruct (@TensorFacts.binop_same_shape Rmult (Tensor.tsqrt var) eps)
    as (scaled & Hmul & Hs_scaled & Hp_scaled); [now rewrite Hshape|].
  destruct (@BroadcastFacts.binop_bcast_right Rplus mean scaled
              ltac:(now rewrite Hs_scaled) ltac:(now rewrite Hs_scaled)
              ltac:(now rewrite Hs_scaled) ltac:(now rewrite Hs_scaled))
    as (latents & Hadd & Hs_lat & Hp_lat).
  destruct (@BroadcastFacts.binop_bcast_left Rminus
              (Tensor.scalar_add 1 log_var) (Tensor.pow2 mean)
              eq_refl eq_refl eq_refl eq_refl)
    as (d1 & Hd1 & Hs_d1 & _).
  destruct (@BroadcastFacts.binop_bcast_right Rminus d1 var
              ltac:(now rewrite Hs_d1) ltac:(now rewrite Hs_d1)
              ltac:(now rewrite Hs_d1) eq_refl)
    as (d2 & Hd2 & _ & _).
  exists latents, (Tensor.scalar_mul1 (- 0.5) (Tensor.mean123 d2)).
  split; [exact Hs_lat|].
  split.
  { intros n c h w Hn Hc Hh Hw.
    rewrite Hp_lat by assumption.
    rewrite Hp_scaled by (try assumption; cbn; lia).
    cbn [Tensor.at_ Tensor.tsqrt Tensor.texp Tensor.map Tensor.narrow1
         mean var log_var].
    unfold mean, var, log_var.
    cbn [Tensor.at_ Tensor.tsqrt Tensor.texp Tensor.map Tensor.narrow1].
    now rewrite Nat.add_0_r. }
  unfold Vae.VAE_forward, Py.bindM, Vae.read_self, Vae.write_self, Py.lift,
    Py.ret, Vae.torch_randn_like.
  cbn [Vae.self_ Vae.gen Vae.set_in_size Vae._encoder Vae._decoder
       Vae._latent_channels].
  rewrite Henc. fold k.
  rewrite (@VaeMoreFacts.split1_two enc k) by (subst k; lia).
  rewrite HC. fold k. replace (k + 1 - k)%nat with 1%nat by lia.
  cbn [Py.unpack2 Vae.self_ Vae.gen].
  fold mean log_var var.
  replace (Ext.randn torch (Tensor.shp var) g)
    with (eps, snd (Ext.randn torch (Tensor.shp var) g))
    by (unfold eps; symmetry; apply surjective_pairing).
  unfold Tensor.mul, Tensor.add, Tensor.sub in *.
  rewrite Hmul, Hadd, Hd1, Hd2.
  destruct (Ext.forward (Vae._decoder self) latents); reflexivity.
Qed.

Lemma VAE_forward_broadcasts_single_log_var_witness :
  Py.is_ok
    (fst (Vae.VAE_forward Sample.image
            (MoreSamples.heap_of (MoreSamples.vae_with 2 3)))) = true.
Proof.
  destruct (@VAE_forward_broadcasts_single_log_var Sample.torch
              (MoreSamples.vae_with 2 3) Sample.image
              (Tensor.Mk (Tensor.Shape 1 3 4 4) (fun _ _ _ _ => 0%R))
              0%nat) as (latents & kl & _ & _ & E).
  - cbn. lia.
  - reflexivity.
  - reflexivity.
  - unfold MoreSamples.heap_of. rewrite E. reflexivity.
Defined.

(* ================================================================== *)
(** ** The state after VAE.forward and VAE.sample                     *)
(* ================================================================== *)

Module VaeStateFacts.

Import Py Ext Tensor Vae.
Local Open Scope R_scope.

Section Run.

Variable torch : Torch.

(** [forward] on any state: the instance afterwards. *)
Lemma forward_instance (x : Tensor.t) (h : Heap torch) :
  self_ (snd (VAE_forward x h)) = set_in_size (self_ h) (dH (shp x)).
Proof.
  destruct h as [self g]. apply VaeFacts.forward_sets_in_size.
Qed.

(** One run of [sample] on an instance that has [_in_size]. *)
Lemma sample_run (n_samples s : nat) (h : Heap torch) :
  _in_size (self_ h) = Some s ->
  _stride (self_ h) = 4%nat ->
  VAE_parameters (self_ h) <> [] ->
  let shape := Shape n_samples (_latent_channels (self_ h)) (s / 4) (s / 4) in
  VAE_sample n_samples h
  = (forward (_decoder (self_ h)) (fst (randn torch shape (gen h))),
     {| self_ := self_ h; gen := snd (randn torch shape (gen h)) |}).
Proof.
  intros Hsize Hstride Hpar shape.
  unfold VAE_sample, bindM, read_self, lift, torch_randn.
  destruct (VAE_parameters (self_ h)) as [|p ps]; [now contradiction Hpar|].
  cbn [next]. unfold get_in_size. rewrite Hsize, Hstride.
  change (2 ^ (4 / 2))%nat with 4%nat. fold shape.
  destruct (randn torch shape (gen h)) as [l g']. reflexivity.
Qed.

(** The state after [forward] when the encoder output splits in two
    halves: one draw of the shape of the latents. *)
Lemma forward_run_state (self : VAE) (x enc : Tensor.t) (g : Gen torch) :
  (0 < _latent_channels self)%nat ->
  forward (_encoder self) x = Ok enc ->
  dC (shp enc) = (2 * _latent_channels self)%nat ->
  let k := _latent_channels self in
  let shape := Shape (dN (shp enc)) k (dH (shp enc)) (dW (shp enc)) in
  snd (VAE_forward x {| self_ := self; gen := g |})
  = {| self_ := set_in_size self (dH (shp x));
       gen := snd (randn torch shape g) |}.
Proof.
  intros Hk Henc HC k shape.
  unfold VAE_forward, bindM, read_self, write_self, lift, ret,
    torch_randn_like.
  cbn [self_ gen set_in_size _encoder _decoder _latent_channels].
  rewrite Henc.
  rewrite (TensorFacts.split1_halves enc Hk HC).
  cbn [unpack2 self_ gen].
  change (shp (texp (narrow1 enc (_latent_channels self)
                       (_latent_channels self)))) with shape.
  destruct (randn torch shape g) as [eps g']. cbn [snd].
  repeat
    (match goal with
     | |- context [match ?e with _ => _ end] =>
         lazymatch e with
         | context [match _ with _ => _ end] => fail
         | _ => destruct e
         end
     end; cbn [snd]);
    reflexivity.
Qed.

End Run.

End VaeStateFacts.

(** X5.  [VAE.forward] stores the input size before it calls the
    encoder: when the encoder raises, [forward] raises the same
    exception without drawing random numbers, yet [_in_size] is set, and
    a following [sample] succeeds with the size of the input that was
    never encoded. *)
Theorem VAE_forward_failure_still_sets_in_size :
  forall (torch : Ext.Torch) (self : Vae.VAE) (x : Tensor.t) (e : Py.exn)
         (g : Ext.Gen torch) (n_samples : nat),
    Ext.forward (Vae._encoder self) x = Py.Raise e ->
    Vae._stride self = 4%nat ->
    Vae.VAE_parameters self <> [] ->
    let after :=
      {| Vae.self_ := Vae.set_in_size self (Tensor.dH (Tensor.shp x));
         Vae.gen := g |} in
    let s := Tensor.dH (Tensor.shp x) in
    let shape :=
      Tensor.Shape n_samples (Vae._latent_channels self) (s / 4) (s / 4) in
    Vae.VAE_forward x {| Vae.self_ := self; Vae.gen := g |}
    = (Py.Raise e, after) /\
    fst (Vae.VAE_sample n_samples after)
    = Ext.forward (Vae._decoder self) (fst (Ext.randn torch shape g)).
Proof.
  intros torch self x e g n Henc Hstride Hpar after s shape. split.
  - unfold Vae.VAE_forward, Py.bindM, Vae.read_self, Vae.write_self,
      Py.lift.
    cbn [Vae.self_ Vae.gen Vae.set_in_size Vae._encoder]. now rewrite Henc.
  - rewrite (@VaeStateFacts.sample_run torch n s after);
      [reflexivity|reflexivity|exact Hstride|exact Hpar].
Qed.

Lemma VAE_forward_failure_still_sets_in_size_witness :
  fst (Vae.VAE_forward Sample.image
         (MoreSamples.heap_of MoreSamples.vae_failing_encoder))
  = Py.Raise (Py.RuntimeError "out of memory") /\
  Py.is_ok
    (fst (Vae.VAE_sample 3
            (snd (Vae.VAE_forward Sample.image
                    (MoreSamples.heap_of MoreSamples.vae_failing_encoder)))))
  = true.
Proof.
  destruct (@VAE_forward_failure_still_sets_in_size Sample.torch
              MoreSamples.vae_failing_encoder Sample.image
              (Py.RuntimeError "out of memory") 0%nat 3%nat)
    as [E1 E2].
  - reflexivity.
  - reflexivity.
  - discriminate.
  - unfold MoreSamples.heap_of. rewrite E1. cbn [fst snd].
    rewrite E2. split; reflexivity.
Defined.

(** X6.  [VAE.sample] never changes the model, and when it raises for a
    missing [_in_size] it has drawn no random numbers. *)
Theorem VAE_sample_keeps_instance :
  forall (torch : Ext.Torch) (h : Vae.Heap torch) (n_samples : nat),
    Vae.self_ (snd (Vae.VAE_sample n_samples h)) = Vae.self_ h /\
    (Vae._in_size (Vae.self_ h) = None ->
     Py.is_ok (fst (Vae.VAE_sample n_samples h)) = false /\
     snd (Vae.VAE_sample n_samples h) = h).
Proof.
  intros torch [self g] n.
  unfold Vae.VAE_sample, Py.bindM, Vae.read_self, Py.lift, Vae.torch_randn.
  cbn [Vae.self_ Vae.gen].
  destruct (Vae.VAE_parameters self) as [|p ps]; cbn [Py.next].
  - split; [reflexivity|]. intros _. split; reflexivity.
  - unfold Vae.get_in_size.
    destruct (Vae._in_size self) as [s|].
    + split; [|discriminate].
      destruct (Ext.randn torch _ g) as [l g']. reflexivity.
    + split; [reflexivity|]. intros _. split; reflexivity.
Qed.

Lemma VAE_sample_keeps_instance_witness :
  snd (Vae.VAE_sample 3 Sample.fresh_heap) = Sample.fresh_heap.
Proof.
  destruct (@VAE_sample_keeps_instance Sample.torch Sample.fresh_heap 3%nat)
    as [_ H].
  apply H. reflexivity.
Defined.



(** X8.  [VAE.sample] uses the size of the latest input: after
    [forward] on [x1] and then on [x2], whatever the two calls did, the
    latents of [sample] have the spatial size [x2.shape[2] / 4]. *)
Theorem VAE_sample_uses_latest_forward :
  forall (torch : Ext.Torch) (self : Vae.VAE) (x1 x2 : Tensor.t)
         (g : Ext.Gen torch) (n_samples : nat),
    Vae._stride self = 4%nat ->
    Vae.VAE_parameters self <> [] ->
    let h1 := snd (Vae.VAE_forward x1
                     {| Vae.self_ := self; Vae.gen := g |}) in
    let h2 := snd (Vae.VAE_forward x2 h1) in
    let s := Tensor.dH (Tensor.shp x2) in
    let shape :=
      Tensor.Shape n_samples (Vae._latent_channels self) (s / 4) (s / 4) in
    fst (Vae.VAE_sample n_samples h2)
    = Ext.forward (Vae._decoder self)
        (fst (Ext.randn torch shape (Vae.gen h2))).
Proof.
  intros torch self x1 x2 g n Hstride Hpar h1 h2 s shape.
  pose proof (@VaeStateFacts.forward_instance torch x1
                {| Vae.self_ := self; Vae.gen := g |}) as H1.
  pose proof (@VaeStateFacts.forward_instance torch x2 h1) as H2.
  fold h1 in H1. fold h2 in H2. rewrite H1 in H2. cbn [Vae.self_] in H2.
  rewrite (@VaeStateFacts.sample_run torch n s h2); rewrite ?H2.
  - reflexivity.
  - reflexivity.
  - exact Hstride.
  - exact Hpar.
Qed.

Lemma VAE_sample_uses_latest_forward_witness :
  let h2 :=
    snd (Vae.VAE_forward MoreSamples.image8
           (snd (Vae.VAE_forward Sample.image Sample.fresh_heap))) in
  fst (Vae.VAE_sample 3 h2)
  = Ext.forward (Vae._decoder Sample.vae_model)
      (fst (Ext.randn Sample.torch (Tensor.Shape 3 2 2 2) (Vae.gen h2))).
Proof.
  apply (@VAE_sample_uses_latest_forward Sample.torch Sample.vae_model
           Sample.image MoreSamples.image8 0%nat 3%nat).
  - reflexivity.
  - discriminate.
Defined.

(** X9.  When the encoder output splits in two halves, [VAE.forward]
    advances the generator by exactly one draw, of the shape
    [(N, latent_channels, H, W)] of the latents, whether the decoder
    then returns or raises; nothing but [_in_size] changes in the
    model. *)
Theorem VAE_forward_draws_once :
  forall (torch : Ext.Torch) (self : Vae.VAE) (x enc : Tensor.t)
         (g : Ext.Gen torch),
    (0 < Vae._latent_channels self)%nat ->
    Ext.forward (Vae._encoder self) x = Py.Ok enc ->
    Tensor.dC (Tensor.shp enc) = (2 * Vae._latent_channels self)%nat ->
    let shape :=
      Tensor.Shape (Tensor.dN (Tensor.shp enc)) (Vae._latent_channels self)
                   (Tensor.dH (Tensor.shp enc))
                   (Tensor.dW (Tensor.shp enc)) in
    snd (Vae.VAE_forward x {| Vae.self_ := self; Vae.gen := g |})
    = {| Vae.self_ := Vae.set_in_size self (Tensor.dH (Tensor.shp x));
         Vae.gen := snd (Ext.randn torch shape g) |}.
Proof.
  intros torch self x enc g Hk Henc HC shape.
  exact (@VaeStateFacts.forward_run_state torch self x enc g Hk Henc HC).
Qed.

Lemma VAE_forward_draws_once_witness :
  Vae.gen (snd (Vae.VAE_forward Sample.image Sample.fresh_heap)) = 1%nat.
Proof.
  unfold Sample.fresh_heap.
  rewrite (@VAE_forward_draws_once Sample.torch Sample.vae_model
             Sample.image Sample.encoded_image 0%nat).
  - reflexivity.
  - cbn. lia.
  - reflexivity.
  - reflexivity.
Defined.

(** X10.  [VAE.__init__] and [VAE.forward] fit together: the encoder is
    built with twice the channels the decoder is built to read, so on a
    constructed model, with a [vaes.Encoder] that returns [out_channels]
    channels and [latent_channels > 0], [forward] returns whenever the
    encoder and the decoder do; its latents have [latent_channels]
    channels. *)
Theorem VAE_init_then_forward_returns :
  forall (torch : Ext.Torch) (vaes : Ext.Vaes)
         (ic oc lc hc rc : nat) (model : Vae.VAE) (x enc : Tensor.t)
         (g : Ext.Gen torch),
    (0 < lc)%nat ->
    (forall a layer x y,
        Ext.Encoder vaes a = Py.Ok layer ->
        Ext.forward layer x = Py.Ok y ->
        Tensor.dC (Tensor.shp y) = Ext.out_channels a) ->
    Vae.__init__ vaes ic oc lc hc rc = Py.Ok model ->
    Ext.forward (Vae._encoder model) x = Py.Ok enc ->
    (forall latents,
        Tensor.dC (Tensor.shp latents) = lc ->
        Py.is_ok (Ext.forward (Vae._decoder model) latents) = true) ->
    Py.is_ok
      (fst (Vae.VAE_forward x {| Vae.self_ := model; Vae.gen := g |}))
    = true.
Proof.
  intros torch vaes ic oc lc hc rc model x enc g Hlc Hcontract Hinit
         Henc Hdec.
  unfold Vae.__init__ in Hinit.
  destruct (Ext.Encoder vaes _) as [encoder|e] eqn:Eenc;
    [|discriminate Hinit].
  destruct (Ext.Decoder vaes _) as [decoder|e] eqn:Edec;
    [|discriminate Hinit].
  cbn [Py.bind] in Hinit. injection Hinit as <-.
  cbn [Vae._encoder Vae._decoder] in *.
  pose proof (Hcontract _ _ _ _ Eenc Henc) as HC.
  cbn [Ext.out_channels] in HC.
  destruct (@VaeFacts.forward_run torch
              {| Vae._latent_channels := lc; Vae._stride := 4;
                 Vae._encoder := encoder; Vae._decoder := decoder;
                 Vae._in_size := None |} x enc g Hlc Henc HC)
    as (latents & d2 & Hs & _ & _ & _ & Hrun).
  rewrite Hrun. cbn [Vae._decoder].
  specialize (Hdec latents).
  destruct (Ext.forward decoder latents); [reflexivity|].
  rewrite Hs in Hdec. now apply Hdec.
Qed.

Lemma VAE_init_then_forward_returns_witness :
  Py.is_ok (fst (Vae.VAE_forward Sample.image Sample.fresh_heap)) = true.
Proof.
  apply (@VAE_init_then_forward_returns Sample.torch Sample.vaes
           1%nat 1%nat 2%nat 128%nat 32%nat Sample.vae_model
           Sample.image Sample.encoded_image 0%nat).
  - lia.
  - intros a layer x y Hl Hy. cbn in Hl. injection Hl as <-.
    cbn in Hy. injection Hy as <-. reflexivity.
  - reflexivity.
  - reflexivity.
  - intros latents _. reflexivity.
Defined.

(* ================================================================== *)
(** ** More about reproduce in models/vae.py                          *)
(* ================================================================== *)

(** X11.  A [debug_loader] that is true replaces both data loaders of
    [reproduce]: the trainer trains and evaluates on that one loader,
    and neither MNIST nor [batch_size] is used. *)
Theorem vae_reproduce_debug_loader :
  forall (truthy : Train.Loader -> bool)
         (models_VAE : nat -> nat -> nat -> nat -> nat -> Py.result Vae.VAE)
         (a : Train.ReproduceArgs) (l : Train.Loader) (model : Vae.VAE)
         (log : list (Train.Event Vae.VAE)),
    Train.debug_loader a = Some l ->
    truthy l = true ->
    models_VAE 1%nat 1%nat 2%nat 128%nat 32%nat = Py.Ok model ->
    exists t : Train.Trainer Vae.VAE,
      Train.vae_reproduce truthy models_VAE a log
      = (Py.Ok tt, log ++ [Train.InterleavedTrainAndEval t (Train.n_epochs a)])
      /\ Train.tr_train_loader t = l
      /\ Train.tr_eval_loader t = l.
Proof.
  intros truthy models_VAE a l model log Hd Ht Hm.
  unfold Train.vae_reproduce, Py.bindM, Py.lift.
  rewrite Hm. cbn beta iota.
  unfold Train.interleaved_train_and_eval, Train.py_or.
  rewrite Hd, Ht.
  eexists. split; [reflexivity|]. split; reflexivity.
Qed.

Lemma vae_reproduce_debug_loader_witness :
  exists t : Train.Trainer Vae.VAE,
    Train.vae_reproduce (fun _ => true) (Vae.__init__ Sample.vaes)
      MoreSamples.args_with_debug []
    = (Py.Ok tt, [Train.InterleavedTrainAndEval t 1%Z])
    /\ Train.tr_train_loader t = MoreSamples.debug
    /\ Train.tr_eval_loader t = MoreSamples.debug.
Proof.
  apply (@vae_reproduce_debug_loader (fun _ => true)
           (Vae.__init__ Sample.vaes) MoreSamples.args_with_debug
           MoreSamples.debug Sample.vae_model []);
    reflexivity.
Defined.





(* ================================================================== *)
(** ** The closures sample_fn and loss_fn                             *)
(* ================================================================== *)

Module ScriptFacts.

Import Py Tensor VaeScript.
Local Open Scope R_scope.

Lemma sigmoid_bounds (v : R) : 0 < 1 / (1 + exp (- v)) < 1.
Proof.
  pose proof (exp_pos (- v)) as He.
  assert (Hd : 0 < 1 + exp (- v)) by lra.
  split.
  - apply Rdiv_lt_0_compat; lra.
  - apply (Rmult_lt_reg_r (1 + exp (- v))); [exact Hd|].
    unfold Rdiv. rewrite Rmult_assoc, Rinv_l by lra. lra.
Qed.



End ScriptFacts.

(** X14.  [sample_fn] returns pixel intensities: on a model that has
    run [forward] (stride 4, at least one parameter) and whose decoder
    returns on the 16 latents drawn, [sample_fn] returns the sigmoid of
    the decoder's output, of the same shape, and every entry lies
    between 0 and 1. *)
Theorem sample_fn_in_unit_interval :
  forall (torch : Ext.Torch) (h : Vae.Heap torch) (s : nat)
         (decoded : Tensor.t),
    Vae._in_size (Vae.self_ h) = Some s ->
    Vae._stride (Vae.self_ h) = 4%nat ->
    Vae.VAE_parameters (Vae.self_ h) <> [] ->
    let shape :=
      Tensor.Shape 16 (Vae._latent_channels (Vae.self_ h)) (s / 4) (s / 4) in
    Ext.forward (Vae._decoder (Vae.self_ h))
      (fst (Ext.randn torch shape (Vae.gen h))) = Py.Ok decoded ->
    exists y,
      fst (VaeScript.sample_fn h) = Py.Ok y /\
      Tensor.shp y = Tensor.shp decoded /\
      forall n c i j, (0 <= Tensor.at_ y n c i j <= 1)%R.
Proof.
  intros torch h s decoded Hsize Hstride Hpar shape Hdec.
  unfold VaeScript.sample_fn, Py.bindM.
  rewrite (@VaeStateFacts.sample_run torch 16 s h Hsize Hstride Hpar).
  fold shape. rewrite Hdec. cbn [Py.ret fst].
  eexists. split; [reflexivity|]. split; [reflexivity|].
  intros n c i j.
  destruct (ScriptFacts.sigmoid_bounds (Tensor.at_ decoded n c i j)).
  cbn [Tensor.at_ VaeScript.tsigmoid Tensor.map]. split; lra.
Qed.

Lemma sample_fn_in_unit_interval_witness :
  exists y,
    fst (VaeScript.sample_fn
           (snd (Vae.VAE_forward Sample.image Sample.fresh_heap)))
    = Py.Ok y /\
    forall n c i j, (0 <= Tensor.at_ y n c i j <= 1)%R.
Proof.
  destruct (@sample_fn_in_unit_interval Sample.torch
              (snd (Vae.VAE_forward Sample.image Sample.fresh_heap))
              4%nat
              (Tensor.Mk (Tensor.Shape 16 1 1 1) (fun _ _ _ _ => 0%R)))
    as (y & E & _ & Hy).
  - reflexivity.
  - reflexivity.
  - discriminate.
  - reflexivity.
  - exists y. split; [exact E|exact Hy].
Defined.



(* ================================================================== *)
(** ** models/vq_vae_2.py with the missing names bound                *)
(* ================================================================== *)

(** X16.  What [VQVAE2.forward] computes in a name space where [torch]
    and [F] are bound: when the layer calls return, it returns the
    output of the bottom decoder on the concatenation of the convolved
    output of the top decoder with the quantized bottom encoding, and
    the loss [0.5 * (vq_loss_b + vq_loss_t) + F.mse_loss(decoded_t,
    encoded_b)]. *)
Theorem VQVAE2_forward_with_F_bound :
  forall (globals : list (string * VqVae2.Binding)) (F : Ext.Functional)
         (self : VqVae2.VQVAE2) (x : Tensor.t)
         (encoded_b encoded_t quantized_t quantized_b decoded_t
          convolved joined xhat : Tensor.t) (vq_loss_t vq_loss_b mse : R),
    VqVae2.load_global globals "torch" = Py.Ok VqVae2.BModuleTorch ->
    VqVae2.load_global globals "F" = Py.Ok (VqVae2.BModuleFunctional F) ->
    Ext.forward (VqVae2._encoder_b self) x = Py.Ok encoded_b ->
    Ext.forward (VqVae2._encoder_t self) encoded_b = Py.Ok encoded_t ->
    Ext.q_forward (VqVae2._quantizer_t self) encoded_t
      = Py.Ok (quantized_t, vq_loss_t) ->
    Ext.q_forward (VqVae2._quantizer_b self) encoded_b
      = Py.Ok (quantized_b, vq_loss_b) ->
    Ext.forward (VqVae2._decoder_t self) quantized_t = Py.Ok decoded_t ->
    Ext.forward (VqVae2._conv self) decoded_t = Py.Ok convolved ->
    Tensor.cat1 convolved quantized_b = Py.Ok joined ->
    Ext.forward (VqVae2._decoder_b self) joined = Py.Ok xhat ->
    Ext.mse_loss F decoded_t encoded_b = Py.Ok mse ->
    VqVae2.VQVAE2_forward globals self x
    = Py.Ok (xhat, (0.5 * (vq_loss_b + vq_loss_t) + mse)%R).
Proof.
  intros globals F self x eb et qt qb dt cv j xh lt lb mse
         Htorch HF Heb Het Hqt Hqb Hdt Hcv Hj Hxh Hmse.
  unfold VqVae2.VQVAE2_forward.
  rewrite Heb. cbn [Py.bind]. rewrite Het. cbn [Py.bind].
  rewrite Hqt. cbn [Py.bind]. rewrite Hqb. cbn [Py.bind].
  rewrite Hdt. cbn [Py.bind].
  rewrite Htorch. cbn [Py.bind VqVae2.as_torch].
  rewrite Hcv. cbn [Py.bind]. rewrite Hj. cbn [Py.bind].
  rewrite Hxh. cbn [Py.bind].
  rewrite HF. cbn [Py.bind VqVae2.as_functional].
  rewrite Hmse. reflexivity.
Qed.

Lemma VQVAE2_forward_with_F_bound_witness :
  exists joined,
    Tensor.cat1 Sample.image Sample.image = Py.Ok joined /\
    VqVae2.VQVAE2_forward MoreSamples.patched_globals
      Sample.vq_model Sample.image
    = Py.Ok (joined, (0.5 * (0 + 0) + 0)%R).
Proof.
  eexists. split; [reflexivity|].
  eapply (@VQVAE2_forward_with_F_bound MoreSamples.patched_globals
            MoreSamples.functional Sample.vq_model Sample.image);
    reflexivity.
Defined.



(** X18.  In [VQVAE2.forward] the exception of [torch.cat] comes before
    the [NameError] for [F]: when the layer calls return but the
    convolved top level and the quantized bottom level differ in batch
    size, height or width, [forward] raises a [RuntimeError]. *)
Theorem VQVAE2_forward_cat_mismatch :
  forall (nn : Ext.Nn) (vaes : Ext.Vaes) (self : VqVae2.VQVAE2)
         (x encoded_b encoded_t quantized_t quantized_b decoded_t
          convolved : Tensor.t) (vq_loss_t vq_loss_b : R),
    Ext.forward (VqVae2._encoder_b self) x = Py.Ok encoded_b ->
    Ext.forward (VqVae2._encoder_t self) encoded_b = Py.Ok encoded_t ->
    Ext.q_forward (VqVae2._quantizer_t self) encoded_t
      = Py.Ok (quantized_t, vq_loss_t) ->
    Ext.q_forward (VqVae2._quantizer_b self) encoded_b
      = Py.Ok (quantized_b, vq_loss_b) ->
    Ext.forward (VqVae2._decoder_t self) quantized_t = Py.Ok decoded_t ->
    Ext.forward (VqVae2._conv self) decoded_t = Py.Ok convolved ->
    Tensor.dN (Tensor.shp convolved) <> Tensor.dN (Tensor.shp quantized_b)
    \/ Tensor.dH (Tensor.shp convolved) <> Tensor.dH (Tensor.shp quantized_b)
    \/ Tensor.dW (Tensor.shp convolved) <> Tensor.dW (Tensor.shp quantized_b)
    ->
    exists msg,
      VqVae2.VQVAE2_forward (VqVae2.module_globals nn vaes) self x
      = Py.Raise (Py.RuntimeError msg).
Proof.
  intros nn vaes self x eb et qt qb dt cv lt lb Heb Het Hqt Hqb Hdt Hcv Hne.
  unfold VqVae2.VQVAE2_forward.
  rewrite Heb. cbn [Py.bind]. rewrite Het. cbn [Py.bind].
  rewrite Hqt. cbn [Py.bind]. rewrite Hqb. cbn [Py.bind].
  rewrite Hdt. cbn [Py.bind].
  rewrite VqVae2Facts.load_torch. cbn [Py.bind VqVae2.as_torch].
  rewrite Hcv. cbn [Py.bind].
  unfold Tensor.cat1.
  destruct (Nat.eqb_spec (Tensor.dN (Tensor.shp cv))
                         (Tensor.dN (Tensor.shp qb)));
    destruct (Nat.eqb_spec (Tensor.dH (Tensor.shp cv))
                           (Tensor.dH (Tensor.shp qb)));
    destruct (Nat.eqb_spec (Tensor.dW (Tensor.shp cv))
                           (Tensor.dW (Tensor.shp qb)));
    cbn [andb Py.bind]; try (eexists; reflexivity).
  exfalso. destruct Hne as [H|[H|H]]; contradiction.
Qed.

Lemma VQVAE2_forward_cat_mismatch_witness :
  exists msg,
    VqVae2.VQVAE2_forward (VqVae2.module_globals Sample.nn Sample.vaes)
      {| VqVae2._encoder_b := Sample.identity_layer;
         VqVae2._encoder_t := Sample.identity_layer;
         VqVae2._quantizer_t := Sample.identity_quantizer;
         VqVae2._quantizer_b := Sample.identity_quantizer;
         VqVae2._decoder_t := Sample.identity_layer;
         VqVae2._conv :=
           {| Ext.parameters := [];
              Ext.forward := fun _ => Py.Ok MoreSamples.image8 |};
         VqVae2._decoder_b := Sample.identity_layer |}
      Sample.image
    = Py.Raise (Py.RuntimeError msg).
Proof.
  eapply VQVAE2_forward_cat_mismatch; try reflexivity.
  right. left. cbn. lia.
Defined.

(* ================================================================== *)
(** ** The split of line 56 and the KL term once more                 *)
(* ================================================================== *)

Module KlFacts.

Import Tensor.
Local Open Scope R_scope.





End KlFacts.

(** X19.  The split of line 56 loses nothing: when the encoder returns
    more than [latent_channels] and at most twice as many channels, the
    two tensors bound to [mean] and [log_var], joined again along the
    channels, are the encoder output. *)
Theorem VAE_split_then_cat_is_identity :
  forall (enc : Tensor.t) (k : nat),
    (k < Tensor.dC (Tensor.shp enc))%nat ->
    (Tensor.dC (Tensor.shp enc) <= 2 * k)%nat ->
    exists mean log_var joined,
      (chunks <- Tensor.split1 enc k ;; Py.unpack2 chunks)%py
      = Py.Ok (mean, log_var) /\
      Tensor.cat1 mean log_var = Py.Ok joined /\
      Tensor.agree joined enc.
Proof.
  intros enc k Hlo Hhi.
  rewrite (VaeMoreFacts.split1_two enc Hlo Hhi). cbn [Py.bind Py.unpack2].
  eexists _, _, _. split; [reflexivity|].
  unfold Tensor.cat1.
  cbn [Tensor.shp Tensor.narrow1 Tensor.dN Tensor.dC Tensor.dH Tensor.dW].
  rewrite !Nat.eqb_refl. cbn [andb].
  split; [reflexivity|].
  unfold Tensor.agree.
  cbn [Tensor.shp Tensor.at_ Tensor.narrow1 Tensor.dN Tensor.dC Tensor.dH
       Tensor.dW].
  split.
  - destruct (Tensor.shp enc) as [N C H W]. cbn in *. f_equal. lia.
  - intros n c h w _ Hc _ _.
    destruct (Nat.ltb_spec c k) as [Hck|Hck]; [reflexivity|].
    f_equal. lia.
Qed.

Lemma VAE_split_then_cat_is_identity_witness :
  exists mean log_var joined,
    (chunks <- Tensor.split1 Sample.encoded_image 2 ;; Py.unpack2 chunks)%py
    = Py.Ok (mean, log_var) /\
    Tensor.cat1 mean log_var = Py.Ok joined /\
    Tensor.agree joined Sample.encoded_image.
Proof.
  apply (@VAE_split_then_cat_is_identity Sample.encoded_image 2%nat);
    cbn; lia.
Defined.


